(** * OpenBrowser: the session-aware CDP reverse proxy of [src/index.ts]

    A shallow embedding of [BrowserRequestHandler] and of the parts of the
    Workers platform it calls (Headers, URL, URLSearchParams, Response),
    followed by the properties of the request router, the authentication
    check, the discovery handler and the proxy forwarder.

    Conventions.
    - A JavaScript string is a [string]: a sequence of bytes.  Text outside
      ASCII is its UTF-8 encoding.
    - [string | null] is [option string]; [null] is [None].
    - A call that can throw returns an [Outcome]; the thrown value is kept as
      the text it renders to in a template string.
    - The handler runs in [M], which records the external calls and console
      lines of one request in order and carries the value or the exception. *)

From Stdlib Require Import Strings.String Strings.Ascii Lists.List Bool.Bool.
From Stdlib Require Import Arith.PeanoNat ZArith.ZArith Lia.
Import ListNotations.
Open Scope string_scope.

(* ================================================================== *)
(** * JavaScript strings *)
(* ================================================================== *)

Module Js.

(** Truthiness of a [string | null] value: [null] and the empty string are
    falsy. *)
Definition truthy (v : option string) : bool :=
  match v with
  | None => false
  | Some s => negb (s =? "")
  end.

(** [a || b] on [string | null] operands. *)
Definition or (a b : option string) : option string :=
  if truthy a then a else b.

(** The string behind a value the type checker has narrowed to [string]. *)
Definition the (v : option string) : string :=
  match v with
  | Some s => s
  | None => ""
  end.

(** [a === b] for a [string | null] against a string literal or value. *)
Definition strict_eq (a : option string) (b : string) : bool :=
  match a with
  | None => false
  | Some s => s =? b
  end.

(** [a === b] for a [string | null] against a [string | undefined]. *)
Definition same (a b : option string) : bool :=
  match a, b with
  | Some x, Some y => x =? y
  | _, _ => false
  end.

(** [hay.includes(needle)]. *)
Fixpoint includes (hay needle : string) : bool :=
  prefix needle hay ||
  match hay with
  | EmptyString => false
  | String _ rest => includes rest needle
  end.

(** ASCII lower-casing of one byte, as used for header names and URL
    schemes. *)
Definition lower_ascii (c : ascii) : ascii :=
  let n := nat_of_ascii c in
  if ((65 <=? n)%nat && (n <=? 90)%nat)%bool then ascii_of_nat (n + 32) else c.

Fixpoint lower (s : string) : string :=
  match s with
  | EmptyString => EmptyString
  | String c rest => String (lower_ascii c) (lower rest)
  end.

(** [drop n s]: [s] without its first [n] bytes. *)
Fixpoint drop (n : nat) (s : string) : string :=
  match n, s with
  | O, _ => s
  | S k, EmptyString => EmptyString
  | S k, String _ rest => drop k rest
  end.

(** The text a replacement template stands for at one match of a pattern
    without capture groups: [$$] is a dollar sign, [$&] the matched text,
    [$`] the text before the match, [$'] the text after it; any other byte,
    and a dollar sign before any other byte, stands for itself. *)
Fixpoint substitute (template matched before after : string) : string :=
  match template with
  | EmptyString => EmptyString
  | String c rest =>
      if Ascii.eqb c "$" then
        match rest with
        | String d rest' =>
            if Ascii.eqb d "$" then
              String "$" (substitute rest' matched before after)
            else if Ascii.eqb d "&" then
              matched ++ substitute rest' matched before after
            else if Ascii.eqb d "`" then
              before ++ substitute rest' matched before after
            else if Ascii.eqb d "'" then
              after ++ substitute rest' matched before after
            else String c (substitute rest matched before after)
        | EmptyString => String c EmptyString
        end
      else String c (substitute rest matched before after)
  end.

(** [s.replace(/pat/g, rep)] for a pattern that is a literal, non-empty
    string: scan left to right, replace each match, resume after it.
    [before] is the text already scanned and [skip] counts the bytes of the
    current match still to be dropped. *)
Fixpoint replace_go (pat rep before : string) (skip : nat) (s : string) : string :=
  match s with
  | EmptyString => EmptyString
  | String c rest =>
      match skip with
      | S k => replace_go pat rep (before ++ String c "") k rest
      | O =>
          if prefix pat s
          then substitute rep pat before (drop (String.length pat) s) ++
               replace_go pat rep (before ++ String c "") (String.length pat - 1) rest
          else String c (replace_go pat rep (before ++ String c "") 0 rest)
      end
  end.

Definition replaceAll (pat rep s : string) : string :=
  replace_go pat rep "" 0 s.

(** The same scan with the replacement inserted as it is.  [replaceAll]
    agrees with it when the replacement has no dollar sign. *)
Fixpoint replace_literal_go (pat rep : string) (skip : nat) (s : string) : string :=
  match s with
  | EmptyString => EmptyString
  | String c rest =>
      match skip with
      | S k => replace_literal_go pat rep k rest
      | O =>
          if prefix pat s
          then rep ++ replace_literal_go pat rep (String.length pat - 1) rest
          else String c (replace_literal_go pat rep 0 rest)
      end
  end.

Definition replace_literal (pat rep s : string) : string :=
  replace_literal_go pat rep 0 s.

End Js.

(* ================================================================== *)
(** * Outcomes and the request monad *)
(* ================================================================== *)

Inductive Outcome (A : Type) : Type :=
| Returned (a : A)
| Thrown (e : string).
Arguments Returned {A} a.
Arguments Thrown {A} e.

(** ** Headers

    A header list in insertion order.  Names are compared without regard to
    ASCII case; [get] joins the values of equally named entries with a comma
    and a space, as the Fetch standard prescribes. *)

Definition Headers := list (string * string).

Definition name_eqb (a b : string) : bool := Js.lower a =? Js.lower b.

Fixpoint join (sep : string) (l : list string) : string :=
  match l with
  | [] => ""
  | [x] => x
  | x :: rest => x ++ sep ++ join sep rest
  end.

Definition headers_values (h : Headers) (name : string) : list string :=
  map snd (filter (fun kv => name_eqb (fst kv) name) h).

Definition headers_has (h : Headers) (name : string) : bool :=
  existsb (fun kv => name_eqb (fst kv) name) h.

Definition headers_get (h : Headers) (name : string) : option string :=
  match headers_values h name with
  | [] => None
  | vs => Some (join ", " vs)
  end.

Definition headers_delete (h : Headers) (name : string) : Headers :=
  filter (fun kv => negb (name_eqb (fst kv) name)) h.

(** HTTP whitespace: TAB, LF, CR and SPACE. *)
Definition http_whitespace (c : ascii) : bool :=
  let n := nat_of_ascii c in
  ((n =? 9) || (n =? 10) || (n =? 13) || (n =? 32))%nat%bool.

Fixpoint trim_start (s : string) : string :=
  match s with
  | EmptyString => EmptyString
  | String c rest => if http_whitespace c then trim_start rest else s
  end.

Fixpoint trim_end (s : string) : string :=
  match s with
  | EmptyString => EmptyString
  | String c rest =>
      match trim_end rest with
      | EmptyString => if http_whitespace c then EmptyString
                       else String c EmptyString
      | kept => String c kept
      end
  end.

(** A header value, normalised: without leading and trailing HTTP
    whitespace. *)
Definition normalize_value (v : string) : string := trim_end (trim_start v).

(** The bytes no header value may hold: NUL, LF and CR. *)
Definition forbidden_in_value (c : ascii) : bool :=
  let n := nat_of_ascii c in
  ((n =? 0) || (n =? 10) || (n =? 13))%nat%bool.

Fixpoint has_forbidden (s : string) : bool :=
  match s with
  | EmptyString => false
  | String c rest => forbidden_in_value c || has_forbidden rest
  end.

(** The value a header list stores for [value]: the normalised value, or a
    [TypeError] when that still holds a forbidden byte. *)
Definition header_value (value : string) : Outcome string :=
  let v := normalize_value value in
  if has_forbidden v then Thrown "TypeError: Invalid header value."
  else Returned v.

(** The list after a valid [(name, value)] has been set: the first entry of
    that name takes the value and the others of that name go; without such an
    entry the pair is appended. *)
Definition headers_put (h : Headers) (name value : string) : Headers :=
  if headers_has h name
  then (fix go (l : Headers) (done : bool) : Headers :=
          match l with
          | [] => []
          | (k, v) :: rest =>
              if name_eqb k name
              then if done then go rest true else (k, value) :: go rest true
              else (k, v) :: go rest done
          end) h false
  else (h ++ [(Js.lower name, value)])%list.

(** [headers.set(name, value)] for a [name] that is a header-name token:
    the value is normalised and validated, then stored. *)
Definition headers_set (h : Headers) (name value : string) : Outcome Headers :=
  match header_value value with
  | Returned v => Returned (headers_put h name v)
  | Thrown e => Thrown e
  end.

(* ================================================================== *)
(** * URL and URLSearchParams *)
(* ================================================================== *)

(** The platform's [URL] objects: the components a URL record of the URL
    standard holds, in the form its getters return them, and the list behind
    [searchParams].  What the handler does with such an object is modelled as
    the standard prescribes: reads of [host], [pathname], [search] and
    [searchParams], a write through [searchParams.set], which replaces the
    query by the form-urlencoded serialisation of the list, and the
    serialiser behind [toString()].

    How the platform parses a string into such an object (host
    normalisation, percent-encoding, dot segments, default ports, the
    decoding of the query into [searchParams]) is not modelled: the handler
    takes its URL constructor as given, see [new_URL] below.  [parse] is a
    plain parser for the sample requests, and [read] splits a printed URL
    into its components as they are written. *)

Module Url.

Definition is_digit (c : ascii) : bool :=
  let n := nat_of_ascii c in ((48 <=? n)%nat && (n <=? 57)%nat)%bool.

Definition is_alpha (c : ascii) : bool :=
  let n := nat_of_ascii c in
  (((65 <=? n)%nat && (n <=? 90)%nat) || ((97 <=? n)%nat && (n <=? 122)%nat))%bool.

(** Bytes the form-urlencoded serialiser leaves as they are. *)
Definition is_safe (c : ascii) : bool :=
  (is_digit c || is_alpha c ||
   Ascii.eqb c "*" || Ascii.eqb c "-" || Ascii.eqb c "." || Ascii.eqb c "_")%bool.

Definition hex_digit (n : nat) : ascii :=
  if (n <? 10)%nat then ascii_of_nat (48 + n) else ascii_of_nat (55 + n).

Definition hex_val (c : ascii) : option nat :=
  let n := nat_of_ascii c in
  if is_digit c then Some (n - 48)
  else if ((65 <=? n)%nat && (n <=? 70)%nat)%bool then Some (n - 55)
  else if ((97 <=? n)%nat && (n <=? 102)%nat)%bool then Some (n - 87)
  else None.

Definition encode_byte (c : ascii) : string :=
  if is_safe c then String c ""
  else if Ascii.eqb c " " then "+"
  else let n := nat_of_ascii c in
       String "%" (String (hex_digit (n / 16)) (String (hex_digit (n mod 16)) "")).

Fixpoint encode (s : string) : string :=
  match s with
  | EmptyString => EmptyString
  | String c rest => encode_byte c ++ encode rest
  end.

Fixpoint plus_to_space (s : string) : string :=
  match s with
  | EmptyString => EmptyString
  | String c rest =>
      String (if Ascii.eqb c "+" then " "%char else c) (plus_to_space rest)
  end.

Fixpoint percent_decode (s : string) : string :=
  match s with
  | EmptyString => EmptyString
  | String c rest =>
      match rest with
      | String a (String b rest') =>
          match Ascii.eqb c "%", hex_val a, hex_val b with
          | true, Some h, Some l =>
              String (ascii_of_nat (16 * h + l)) (percent_decode rest')
          | _, _, _ => String c (percent_decode rest)
          end
      | _ => String c (percent_decode rest)
      end
  end.

(** The form-urlencoded decoding of a name or a value, byte by byte.  The
    platform goes on to read the bytes as UTF-8 and replaces what is not by
    U+FFFD; the two agree on text whose escapes spell UTF-8, as all text does
    that [encode] has written. *)
Definition decode (s : string) : string := percent_decode (plus_to_space s).

(** [split_on sep s]: the pieces of [s] between occurrences of [sep]. *)
Fixpoint split_on (sep : ascii) (s : string) : list string :=
  match s with
  | EmptyString => [""]
  | String c rest =>
      if Ascii.eqb c sep then "" :: split_on sep rest
      else match split_on sep rest with
           | [] => [String c ""]
           | h :: t => String c h :: t
           end
  end.

(** [span stop s]: the longest prefix of [s] without a stop byte, and the
    rest (which starts with the stop byte, if any). *)
Fixpoint span (stop : ascii -> bool) (s : string) : string * string :=
  match s with
  | EmptyString => ("", "")
  | String c rest =>
      if stop c then ("", s)
      else let (a, b) := span stop rest in (String c a, b)
  end.

Definition Params := list (string * string).

Definition parse_pair (piece : string) : string * string :=
  let (n, r) := span (fun c => Ascii.eqb c "=") piece in
  match r with
  | EmptyString => (decode n, "")
  | String _ v => (decode n, decode v)
  end.

(** The form-urlencoded parser: empty pieces are skipped. *)
Definition parse_params (q : string) : Params :=
  map parse_pair (filter (fun p => negb (p =? "")) (split_on "&" q)).

Definition encode_pair (kv : string * string) : string :=
  encode (fst kv) ++ "=" ++ encode (snd kv).

Definition serialize_params (l : Params) : string :=
  join "&" (map encode_pair l).

(** [URLSearchParams.get]: the value of the first pair of that name. *)
Fixpoint params_get (l : Params) (name : string) : option string :=
  match l with
  | [] => None
  | (k, v) :: rest => if k =? name then Some v else params_get rest name
  end.

Definition params_has (l : Params) (name : string) : bool :=
  existsb (fun kv => fst kv =? name) l.

(** [URLSearchParams.set]: overwrite the first pair of that name and drop
    the others, or append a new pair. *)
Fixpoint params_set_go (l : Params) (name value : string) (done : bool) : Params :=
  match l with
  | [] => []
  | (k, v) :: rest =>
      if k =? name
      then if done then params_set_go rest name value true
           else (k, value) :: params_set_go rest name value true
      else (k, v) :: params_set_go rest name value done
  end.

Definition params_set (l : Params) (name value : string) : Params :=
  if params_has l name then params_set_go l name value false
  else (l ++ [(name, value)])%list.

Record URL : Type := mkURL {
  scheme : string;            (* without the colon *)
  host : string;              (* [url.host]: hostname, with ":port" when the
                                 URL has a port; empty without a host *)
  pathname : string;
  query : option string;      (* without the question mark *)
  fragment : option string;   (* without the hash sign *)
  userinfo : string;          (* "user" or "user:password"; empty without
                                 credentials *)
  has_authority : bool;       (* the URL's host is not null *)
  params : Params             (* the list of [url.searchParams] *)
}.

Definition query_text (u : URL) : string :=
  match query u with Some q => q | None => "" end.

(** [url.search]: empty when the query is absent or empty. *)
Definition search (u : URL) : string :=
  if query_text u =? "" then "" else "?" ++ query_text u.

Definition searchParams (u : URL) : Params := params u.

Definition searchParams_get (u : URL) (name : string) : option string :=
  params_get (searchParams u) name.

(** [url.searchParams.set(name, value)]: the list is updated and the query
    becomes its serialisation (which is not empty, the list having a pair). *)
Definition searchParams_set (u : URL) (name value : string) : URL :=
  {| scheme := scheme u; host := host u; pathname := pathname u;
     query := Some (serialize_params (params_set (searchParams u) name value));
     fragment := fragment u;
     userinfo := userinfo u;
     has_authority := has_authority u;
     params := params_set (searchParams u) name value |}.

(** The credentials as the serialiser prints them before the host. *)
Definition credentials (u : URL) : string :=
  if userinfo u =? "" then "" else userinfo u ++ "@".

(** [url.toString()], that is [url.href]: the URL serialiser.  Without a
    host, a path that starts with two slashes is kept apart from the scheme
    by [/.]. *)
Definition href (u : URL) : string :=
  scheme u ++ ":" ++
  (if has_authority u then "//" ++ credentials u ++ host u
   else if prefix "//" (pathname u) then "/." else "") ++
  pathname u ++
  match query u with Some q => "?" ++ q | None => "" end ++
  match fragment u with Some f => "#" ++ f | None => "" end.

(** The text of a URL with an authority and a query, from its parts;
    [cred] is empty or ends with the [@] before the host. *)
Definition print (sch cred h path q : string) (f : option string) : string :=
  sch ++ String ":" (String "/" (String "/"
    (cred ++ h ++ path ++
     String "?" (q ++ match f with Some f => String "#" f | None => "" end)))).

Definition scheme_char (c : ascii) : bool :=
  (is_alpha c || is_digit c ||
   Ascii.eqb c "+" || Ascii.eqb c "-" || Ascii.eqb c ".")%bool.

Fixpoint forallb_string (p : ascii -> bool) (s : string) : bool :=
  match s with
  | EmptyString => true
  | String c rest => (p c && forallb_string p rest)%bool
  end.

Definition valid_scheme (s : string) : bool :=
  match s with
  | EmptyString => false
  | String c rest => (is_alpha c && forallb_string scheme_char rest)%bool
  end.

Definition authority_stop (c : ascii) : bool :=
  (Ascii.eqb c "/" || Ascii.eqb c "?" || Ascii.eqb c "#")%bool.

Definition path_stop (c : ascii) : bool :=
  (Ascii.eqb c "?" || Ascii.eqb c "#")%bool.

(** The bytes of a host: those of domain names and of IP literals, and the
    colon before a port. *)
Definition host_char (c : ascii) : bool :=
  (is_alpha c || is_digit c ||
   Ascii.eqb c "-" || Ascii.eqb c "." || Ascii.eqb c "_" ||
   Ascii.eqb c ":" || Ascii.eqb c "[" || Ascii.eqb c "]")%bool.

Definition valid_host (h : string) : bool :=
  (negb (h =? "") && forallb_string host_char h)%bool.

(** A parser for URLs of the plain shape
    [scheme://host[:port]/path?query#fragment], with a host of letters,
    digits and [-._:[]], which it keeps as written.  It stands for the
    platform's parser on the sample requests, which are of this shape, in
    lower case and in ASCII. *)
Definition parse (s : string) : option URL :=
  let (sch, r0) := span (fun c => Ascii.eqb c ":") s in
  match r0 with
  | String _ (String "/" (String "/" r1)) =>
      if valid_scheme sch then
        let (auth, r2) := span authority_stop r1 in
        if valid_host auth then
          let (path, r3) := span path_stop r2 in
          let (q, r4) :=
            match r3 with
            | String "?" r => let (q, r') := span (fun c => Ascii.eqb c "#") r in
                              (Some q, r')
            | _ => (None, r3)
            end in
          let f := match r4 with
                   | String "#" r => Some r
                   | _ => None
                   end in
          Some {| scheme := Js.lower sch; host := auth;
                  pathname := if path =? "" then "/" else path;
                  query := q; fragment := f;
                  userinfo := ""; has_authority := true;
                  params := parse_params (match q with Some q => q | None => "" end) |}
        else None
      else None
  | _ => None
  end.

(** [clear_of stop s]: no byte of [s] is a stop byte. *)
Definition clear_of (stop : ascii -> bool) (s : string) : bool :=
  forallb_string (fun c => negb (stop c)) s.

Definition starts_with_slash (s : string) : bool :=
  match s with
  | String "/" _ => true
  | _ => false
  end.


(** A URL without credentials whose list is the one its query spells. *)
Definition plain (u : URL) : Prop :=
  userinfo u = "" /\ has_authority u = true /\
  params u = parse_params (query_text u).

Definition at_sign (c : ascii) : bool := Ascii.eqb c "@".

(** What the URL standard guarantees of every URL object: the scheme is in
    lower case, starts with a letter and goes on with letters, digits and
    [+-.]; credentials and host hold none of [/ ? #], which the parser
    percent-encodes or refuses there, and the host holds no [@]; without a
    host there are no credentials and [url.host] is empty; with a host, the
    path is empty or starts with a slash; the path holds neither [?] nor
    [#], and the query no [#]. *)
Definition sound (u : URL) : bool :=
  (valid_scheme (scheme u) && (Js.lower (scheme u) =? scheme u) &&
   clear_of authority_stop (userinfo u) &&
   clear_of authority_stop (host u) && clear_of at_sign (host u) &&
   (has_authority u || ((host u =? "") && (userinfo u =? ""))) &&
   (negb (has_authority u) || (pathname u =? "") || starts_with_slash (pathname u)) &&
   clear_of path_stop (pathname u) &&
   clear_of (fun c => Ascii.eqb c "#") (query_text u))%bool.

(** [split_at_last auth]: the text before and the text after the last [@]
    of [auth], if it has one. *)
Fixpoint split_at_last (auth : string) : option (string * string) :=
  match auth with
  | EmptyString => None
  | String c rest =>
      match split_at_last rest with
      | Some (a, b) => Some (String c a, b)
      | None => if at_sign c then Some ("", rest) else None
      end
  end.

(** The credentials and the host of an authority, which its last [@]
    separates. *)
Definition split_credentials (auth : string) : string * string :=
  match split_at_last auth with
  | Some p => p
  | None => ("", auth)
  end.

(** [read s]: the components of a printed URL with an authority,
    [scheme://[credentials@]host[:port]path[?query][#fragment]], as they are
    written (the generic syntax of RFC 3986), and the list its query spells.
    Nothing is normalised. *)
Definition read (s : string) : option URL :=
  let (sch, r0) := span (fun c => Ascii.eqb c ":") s in
  match r0 with
  | String _ (String "/" (String "/" r1)) =>
      if valid_scheme sch then
        let (auth, r2) := span authority_stop r1 in
        let (path, r3) := span path_stop r2 in
        let (q, r4) :=
          match r3 with
          | String "?" r => let (q, r') := span (fun c => Ascii.eqb c "#") r in
                            (Some q, r')
          | _ => (None, r3)
          end in
        let f := match r4 with
                 | String "#" r => Some r
                 | _ => None
                 end in
        Some {| scheme := sch;
                host := snd (split_credentials auth);
                pathname := path;
                query := q; fragment := f;
                userinfo := fst (split_credentials auth);
                has_authority := true;
                params := parse_params (match q with Some q => q | None => "" end) |}
      else None
  | _ => None
  end.

End Url.

(* ================================================================== *)
(** * JSON values *)
(* ================================================================== *)

(** A value produced by [JSON.parse].  A number is kept as the text
    [String(n)] renders it to, which is all the handler can observe of it. *)
#[local] Set Warnings "-register-all".
Inductive json : Type :=
| JNull
| JBool (b : bool)
| JNum (repr : string)
| JStr (s : string)
| JArr (items : list json)
| JObj (fields : list (string * json)).

Module Json.

Fixpoint lookup (fields : list (string * json)) (k : string) : option json :=
  match fields with
  | [] => None
  | (k', v) :: rest => if k' =? k then Some v else lookup rest k
  end.

Fixpoint update (fields : list (string * json)) (k : string) (v : json)
  : list (string * json) :=
  match fields with
  | [] => [(k, v)]
  | (k', v') :: rest =>
      if k' =? k then (k, v) :: rest else (k', v') :: update rest k v
  end.

(** Truthiness; [None] is [undefined]. *)
Definition truthy (v : option json) : bool :=
  match v with
  | None | Some JNull => false
  | Some (JBool b) => b
  | Some (JNum r) => negb (r =? "0")
  | Some (JStr s) => negb (s =? "")
  | Some (JArr _) | Some (JObj _) => true
  end.

(** [String(v)], the coercion [new URL(v)] applies to its argument. *)
Fixpoint toString (v : json) : string :=
  match v with
  | JNull => "null"
  | JBool true => "true"
  | JBool false => "false"
  | JNum r => r
  | JStr s => s
  | JArr items =>
      join "," (map (fun x => match x with JNull => "" | _ => toString x end) items)
  | JObj _ => "[object Object]"
  end.

(** [String(v)] where [None] is [undefined]. *)
Definition coerce (v : option json) : string :=
  match v with
  | Some x => toString x
  | None => "undefined"
  end.

(** [data[k]] for a key that is not a built-in property name. *)
Definition get_prop (data : json) (k : string) : Outcome (option json) :=
  match data with
  | JNull =>
      Thrown ("TypeError: Cannot read properties of null (reading '" ++ k ++ "')")
  | JObj fields => Returned (lookup fields k)
  | _ => Returned None
  end.

(** [data[k] = v] in strict mode, as far as [JSON.stringify] can tell. *)
Definition set_prop (data : json) (k : string) (v : json) : Outcome json :=
  match data with
  | JObj fields => Returned (JObj (update fields k v))
  | JArr items => Returned (JArr items)
  | JNull =>
      Thrown ("TypeError: Cannot set properties of null (setting '" ++ k ++ "')")
  | _ => Thrown ("TypeError: Cannot create property '" ++ k ++ "'")
  end.

End Json.

(* ================================================================== *)
(** * Requests, responses and the backend *)
(* ================================================================== *)

Record Request : Type := mkRequest {
  req_method : string;
  req_url : string;
  req_headers : Headers;
  req_body : option string
}.

(** The body of a response the handler builds: a text, the
    [JSON.stringify] rendering of a value, or no body at all. *)
Inductive Body : Type :=
| Text (s : string)
| Json (j : json)
| NoBody.

Record Response : Type := mkResponse {
  status : Z;
  headers : Headers;
  body : Body
}.

(** A response received from a backend, through the readers the handler
    applies to it: [resp.text()] and [resp.json()] may each reject. *)
Record BackendResponse : Type := mkBackendResponse {
  b_status : Z;
  b_headers : Headers;
  b_text : Outcome string;
  b_json : Outcome json
}.

Definition null_body_status (st : Z) : bool :=
  ((st =? 101) || (st =? 204) || (st =? 205) || (st =? 304))%Z%bool.

Definition body_content_type (b : Body) : option string :=
  match b with
  | Text _ => Some "text/plain;charset=UTF-8"
  | Json _ => Some "application/json"
  | NoBody => None
  end.

(** A body of length zero. *)
Definition body_is_empty (b : Body) : bool :=
  match b with
  | Text s => s =? ""
  | Json _ => false
  | NoBody => true
  end.

(** The header list of a new response: the init headers, and the
    [content-type] of the body when there is a body and the init headers
    carry none. *)
Definition with_content_type (h : Headers) (b : Body) : Headers :=
  match body_content_type b with
  | Some ct => if headers_has h "content-type" then h
               else (h ++ [("content-type", ct)])%list
  | None => h
  end.

(** [new Response(body, { status, headers })] on the Workers runtime.  The
    status must lie in 200..599.  With a null-body status (204, 205, 304) a
    body of length zero is taken as no body, and any other body is a
    [TypeError]. *)
Definition new_Response (b : Body) (st : Z) (h : Headers) : Outcome Response :=
  if ((st <? 200) || (599 <? st))%Z%bool then
    Thrown "RangeError: Responses may only be constructed with status codes in the range 200 to 599, inclusive."
  else if null_body_status st then
    if body_is_empty b
    then Returned {| status := st; headers := h; body := NoBody |}
    else Thrown "TypeError: Response with null body status (101, 204, 205, or 304) cannot have a body."
  else
    Returned {| status := st; headers := with_content_type h b; body := b |}.

(** [Response.json(data, { status })]. *)
Definition Response_json (data : json) (st : Z) : Outcome Response :=
  new_Response (Json data) st [].

(** A Durable Object stub of a [BrowserContainer]. *)
Record DurableObjectStub : Type := mkStub {
  containerFetch : string -> Request -> Outcome BackendResponse;
  fetch : Request -> Outcome Response
}.

(** [ns.get(ns.idFromName(name))]. *)
Record DurableObjectNamespace : Type := mkNamespace {
  get_by_name : string -> Outcome DurableObjectStub
}.

(** [type Env]; the [DB] binding is never read by the handler. *)
Record Env : Type := mkEnv {
  BROWSER_CONTAINER : DurableObjectNamespace;
  API_KEY : option string;
  DEV : option string
}.

Record AuthResult : Type := mkAuthResult {
  isAuthenticated : bool;
  message : string
}.

(** What one request does to the outside, in order. *)
Inductive Event : Type :=
| ConsoleLogAuth (r : AuthResult)
| ConsoleError (line : string)
| CallGet (name : string)
| CallContainerFetch (upstream : string) (req : Request)
| CallFetch (req : Request).

Definition M (A : Type) : Type := (list Event * Outcome A)%type.

Definition ret {A} (a : A) : M A := ([], Returned a).

Definition bind {A B} (m : M A) (k : A -> M B) : M B :=
  match m with
  | (t, Returned a) => let (t', r) := k a in ((t ++ t')%list, r)
  | (t, Thrown e) => (t, Thrown e)
  end.

Definition emit (e : Event) : M unit := ([e], Returned tt).

Definition lift {A} (o : Outcome A) : M A := ([], o).

(** [try { body } catch (error) { handler }] *)
Definition try_catch {A} (m : M A) (handler : string -> M A) : M A :=
  match m with
  | (t, Thrown e) => let (t', r) := handler e in ((t ++ t')%list, r)
  | ok => ok
  end.

Declare Scope m_scope.
Delimit Scope m_scope with M.
Notation "x <- m ;; k" := (bind m (fun x => k))
  (at level 61, m at next level, right associativity) : m_scope.
Notation "m ;; k" := (bind m (fun _ => k))
  (at level 61, right associativity) : m_scope.
Open Scope m_scope.

Definition events {A} (m : M A) : list Event := fst m.
Definition outcome {A} (m : M A) : Outcome A := snd m.

(* ================================================================== *)
(** * BrowserRequestHandler *)
(* ================================================================== *)

(** The handler, with the URL constructor of the platform it runs on:
    [new_URL s] is what [new URL(s)] returns or throws there. *)
Record BrowserRequestHandler : Type := mkHandler {
  env : Env;
  request : Request;
  url : Url.URL;
  new_URL : string -> Outcome Url.URL
}.

Definition internal_address : string := "127.0.0.1:3000".

Section Handler.

Variable this : BrowserRequestHandler.

(** The value [randomUUID()] returns when this request calls it. *)
Variable uuid : string.

Definition extractSessionId : option string :=
  Js.or (headers_get (req_headers (request this)) "X-Session-ID")
        (Url.searchParams_get (url this) "sessionId").

Definition isJsonVersionRequest : bool :=
  ((Url.pathname (url this) =? "/json/version") ||
   (Url.pathname (url this) =? "/json/version/"))%bool.

(** [this.env.BROWSER_CONTAINER.get(this.env.BROWSER_CONTAINER.idFromName(name))] *)
Definition namespace_get (name : string) : M DurableObjectStub :=
  emit (CallGet name) ;;
  lift (get_by_name (BROWSER_CONTAINER (env this)) name).

Definition getContainer (sessionId : string) : M DurableObjectStub :=
  namespace_get sessionId.

Definition rewriteHost (text : string) : string :=
  Js.replaceAll internal_address (Url.host (url this)) text.

Definition upstream_url : string :=
  "http://127.0.0.1:3000" ++ Url.pathname (url this) ++ Url.search (url this).

Definition call_containerFetch (container : DurableObjectStub)
  : M BackendResponse :=
  emit (CallContainerFetch upstream_url (request this)) ;;
  lift (containerFetch container upstream_url (request this)).

Definition containerFetchWithRewrite (container : DurableObjectStub)
  : M Response :=
  resp <- call_containerFetch container ;;
  text <- lift (b_text resp) ;;
  let fixed := rewriteHost text in
  let headers := headers_delete (b_headers resp) "content-length" in
  lift (new_Response (Text fixed) (b_status resp) headers).

Definition is_json_content_type (contentType : option string) : bool :=
  match contentType with
  | Some ct => Js.includes ct "application/json"
  | None => false
  end.

Definition too_many_sessions (text : string) : json :=
  JObj [("error", JStr "Too many concurrent browser sessions");
        ("message",
         JStr "Maximum concurrent container limit reached. Please try again later.");
        ("details", JStr text)].

(** What the [try] block of [handleJsonVersionRequest] does with the
    backend's answer. *)
Definition process_discovery_response (sessionId : string) (resp : BackendResponse)
  : M Response :=
  let contentType := headers_get (b_headers resp) "content-type" in
  if negb (is_json_content_type contentType) then
    text <- lift (b_text resp) ;;
    emit (ConsoleError ("Non-JSON response from container: " ++ text)) ;;
    if (Js.includes text "no Container instance available" ||
        Js.includes text "max concurrent instance count")%bool
    then lift (new_Response (Json (too_many_sessions text)) 429
                            [("Content-Type", "application/json")])
    else lift (new_Response
                 (Text ("Container initialization failed: " ++ text)) 500 [])
  else
    data <- lift (b_json resp) ;;
    field <- lift (Json.get_prop data "webSocketDebuggerUrl") ;;
    if Json.truthy field then
      wsUrl <- lift (new_URL this (Json.coerce field)) ;;
      let wsUrl := Url.searchParams_set wsUrl "sessionId" sessionId in
      data <- lift (Json.set_prop data "webSocketDebuggerUrl"
                      (JStr (rewriteHost (Url.href wsUrl)))) ;;
      lift (Response_json data 200)
    else lift (Response_json data 200).

(** The body of the [try] block of [handleJsonVersionRequest]. *)
Definition discovery_attempt (sessionId : string) (container : DurableObjectStub)
  : M Response :=
  resp <- call_containerFetch container ;;
  process_discovery_response sessionId resp.

(** The [catch] block of [handleJsonVersionRequest]. *)
Definition discovery_failed (sessionId : string) (error : string) : M Response :=
  emit (ConsoleError ("Error with container " ++ sessionId ++ ": " ++ error)) ;;
  lift (new_Response
          (Text ("Failed to initialize browser container: " ++ error)) 500 []).

Definition handleJsonVersionRequest : M Response :=
  let sessionId := uuid in
  container <- namespace_get sessionId ;;
  try_catch (discovery_attempt sessionId container) (discovery_failed sessionId).

Definition handleWebsocketUpgrade (container : DurableObjectStub)
  (sessionId : string) : M Response :=
  newHeaders <- lift (headers_set (req_headers (request this)) "X-Session-ID" sessionId) ;;
  let newRequest := {| req_method := req_method (request this);
                       req_url := req_url (request this);
                       req_headers := newHeaders;
                       req_body := req_body (request this) |} in
  emit (CallFetch newRequest) ;;
  lift (fetch container newRequest).

Definition checkAuthentication : AuthResult :=
  let isDev := Js.strict_eq (DEV (env this)) "true" in
  if isDev then {| isAuthenticated := true; message := "" |}
  else if negb (Js.truthy (API_KEY (env this))) then
    {| isAuthenticated := false;
       message := "API_KEY not configured. See README.md for instructions." |}
  else
    let apiKeyParam := Url.searchParams_get (url this) "apiKey" in
    if (Js.truthy apiKeyParam && Js.same apiKeyParam (API_KEY (env this)))%bool
    then {| isAuthenticated := true; message := "" |}
    else {| isAuthenticated := false;
            message := "Invalid or missing API key. Use ?apiKey=YOUR_KEY" |}.

Definition authentication_required (authResult : AuthResult) : json :=
  JObj [("error", JStr "Authentication required");
        ("message", JStr (message authResult));
        ("instructions",
         JStr "Add ?apiKey=YOUR_API_KEY to the URL or use Authorization header")].

(** The body of the first [if] of [handle]: the authentication check in
    front of the discovery handler.  The statement after the inner
    discovery test (the plain-text 401) is a parameter, so that what
    [handle] does can be compared across choices of it. *)
Definition guarded_discovery (plain401 : AuthResult -> M Response) : M Response :=
  let authResult := checkAuthentication in
  if negb (isAuthenticated authResult) then
    emit (ConsoleLogAuth authResult) ;;
    if isJsonVersionRequest
    then lift (Response_json (authentication_required authResult) 401)
    else plain401 authResult
  else handleJsonVersionRequest.

Definition session_required : M Response :=
  lift (new_Response (Text "Session ID required") 400 []).

Definition handle_with (plain401 : AuthResult -> M Response) : M Response :=
  let upgradeHeader := headers_get (req_headers (request this)) "Upgrade" in
  let sessionId := extractSessionId in
  if (negb (Js.truthy sessionId) && isJsonVersionRequest)%bool then
    guarded_discovery plain401
  else if negb (Js.truthy sessionId) then
    session_required
  else
    let sessionId := Js.the sessionId in
    container <- getContainer sessionId ;;
    if Js.strict_eq upgradeHeader "websocket"
    then handleWebsocketUpgrade container sessionId
    else containerFetchWithRewrite container.

Definition plain_401 (authResult : AuthResult) : M Response :=
  lift (new_Response (Text (message authResult)) 401 []).

Definition handle : M Response := handle_with plain_401.

(** ** The routing decision of [handle], as a value *)

Inductive Route : Type :=
| ToDiscovery
| ToSessionRequired
| ToWebsocket (sessionId : string)
| ToProxy (sessionId : string).

Definition route : Route :=
  let sessionId := extractSessionId in
  if (negb (Js.truthy sessionId) && isJsonVersionRequest)%bool then ToDiscovery
  else if negb (Js.truthy sessionId) then ToSessionRequired
  else if Js.strict_eq (headers_get (req_headers (request this)) "Upgrade") "websocket"
       then ToWebsocket (Js.the sessionId)
       else ToProxy (Js.the sessionId).

Definition dispatch (r : Route) : M Response :=
  match r with
  | ToDiscovery => guarded_discovery plain_401
  | ToSessionRequired => session_required
  | ToWebsocket sessionId =>
      container <- getContainer sessionId ;;
      handleWebsocketUpgrade container sessionId
  | ToProxy sessionId =>
      container <- getContainer sessionId ;;
      containerFetchWithRewrite container
  end.

End Handler.


(** The [fetch] entry point of the worker on a platform whose URL
    constructor is [construct]: parse the URL of the request, build the
    handler, run it. *)
Definition worker_fetch (construct : string -> Outcome Url.URL)
  (request : Request) (env : Env) (uuid : string) : M Response :=
  url <- lift (construct (req_url request)) ;;
  handle {| env := env; request := request; url := url;
            new_URL := construct |} uuid.

(** A request presents no session identity when [!sessionId] holds. *)
Definition no_session (this : BrowserRequestHandler) : Prop :=
  Js.truthy (extractSessionId this) = false.

Definition is_discovery_path (path : string) : Prop :=
  path = "/json/version" \/ path = "/json/version/".

(** Development mode is on exactly when [DEV === "true"]. *)
Definition dev_mode (e : Env) : Prop := DEV e = Some "true".

(** A shared key is configured when [API_KEY] is set and not empty, that is
    when [!this.env.API_KEY] is false. *)
Definition key_configured (e : Env) (k : string) : Prop :=
  API_KEY e = Some k /\ k <> "".

(** The discovery response is not JSON when its [content-type] is missing or
    does not contain [application/json]. *)
Definition not_json (resp : BackendResponse) : Prop :=
  is_json_content_type (headers_get (b_headers resp) "content-type") = false.

(** The backend answers the discovery request of [this], sent to the backend
    of session [sessionId], with [resp]. *)
Definition backend_answers (this : BrowserRequestHandler) (sessionId : string)
  (resp : BackendResponse) : Prop :=
  exists container,
    get_by_name (BROWSER_CONTAINER (env this)) sessionId = Returned container /\
    containerFetch container (upstream_url this) (request this) = Returned resp.

(** An error [e] is thrown in the guarded steps of discovery: while the
    request is forwarded to the backend handle [container], or while the
    backend's answer is processed. *)
Definition thrown_in_guarded_steps (this : BrowserRequestHandler) (sessionId : string)
  (container : DurableObjectStub) (e : string) : Prop :=
  containerFetch container (upstream_url this) (request this) = Thrown e \/
  exists resp,
    containerFetch container (upstream_url this) (request this) = Returned resp /\
    outcome (process_discovery_response this sessionId resp) = Thrown e.

(** The answer of the [catch] block to the error [e]. *)
Definition failed_500 (e : string) : Response :=
  {| status := 500;
     headers := [("content-type", "text/plain;charset=UTF-8")];
     body := Text ("Failed to initialize browser container: " ++ e) |}.

(** [new Response] accepts the status [st] with the text [fixed] as body:
    the status lies in 200..599, and with a null-body status the text is
    empty. *)
Definition accepts (st : Z) (fixed : string) : bool :=
  (negb ((st <? 200) || (599 <? st))%Z &&
   (negb (null_body_status st) || (fixed =? "")%string))%bool.

(** The body of a proxied response: none under a null-body status, the
    rewritten text otherwise. *)
Definition proxied_body (resp : BackendResponse) (fixed : string) : Body :=
  if null_body_status (b_status resp) then NoBody else Text fixed.

(** The header list of a proxied response: the backend's without
    [content-length], and, when the response has a body, with the text
    [content-type] that [new Response] supplies if the backend sent none. *)
Definition outgoing (resp : BackendResponse) : Headers :=
  let h := headers_delete (b_headers resp) "content-length" in
  if null_body_status (b_status resp) then h
  else if headers_has h "content-type" then h
  else (h ++ [("content-type", "text/plain;charset=UTF-8")])%list.

(** The debugger URL the discovery handler puts in its answer, from the
    URL object [wsUrl] built for the backend's payload:
    [wsUrl.searchParams.set("sessionId", sessionId)], then
    [this.rewriteHost(wsUrl.toString())]. *)
Definition rewritten_debugger_url (this : BrowserRequestHandler)
  (sessionId : string) (wsUrl : Url.URL) : string :=
  rewriteHost this (Url.href (Url.searchParams_set wsUrl "sessionId" sessionId)).

(** The backend's discovery answer is JSON (by its [content-type]) and
    parses to [data]. *)
Definition json_payload (resp : BackendResponse) (data : json) : Prop :=
  is_json_content_type (headers_get (b_headers resp) "content-type") = true /\
  b_json resp = Returned data.

(** The payload [data] has a [webSocketDebuggerUrl] field, of value [v]. *)
Definition debugger_url_field (data : json) (v : json) : Prop :=
  Json.get_prop data "webSocketDebuggerUrl" = Returned (Some v).

(** The answer [out] is a 200 whose JSON body has the debugger URL [s]. *)
Definition answers_debugger_url (out : Response) (s : string) : Prop :=
  status out = 200%Z /\
  exists fields,
    body out = Json (JObj fields) /\
    Json.lookup fields "webSocketDebuggerUrl" = Some (JStr s).


(** [occurs c s]: the byte [c] occurs in [s]. *)
Fixpoint occurs (c : ascii) (s : string) : bool :=
  match s with
  | EmptyString => false
  | String x rest => (Ascii.eqb x c || occurs c rest)%bool
  end.

(** A [string | null] input that is missing or empty. *)
Definition blank (v : option string) : Prop := v = None \/ v = Some "".

(** The two session inputs of a request. *)
Definition session_header (this : BrowserRequestHandler) : option string :=
  headers_get (req_headers (request this)) "X-Session-ID".

Definition session_param (this : BrowserRequestHandler) : option string :=
  Url.searchParams_get (url this) "sessionId".

(** The structured answer to a failed authentication check. *)
Definition structured_401 (r : AuthResult) : Response :=
  {| status := 401;
     headers := [("content-type", "application/json")];
     body := Json (JObj [("error", JStr "Authentication required");
                         ("message", JStr (message r));
                         ("instructions",
                          JStr "Add ?apiKey=YOUR_API_KEY to the URL or use Authorization header")]) |}.

Definition is_auth_log (e : Event) : bool :=
  match e with
  | ConsoleLogAuth _ => true
  | _ => false
  end.

(** A computation none of whose events is of the kind [p]. *)
Definition avoids {A} (p : Event -> bool) (m : M A) : Prop :=
  forallb (fun e => negb (p e)) (events m) = true.

(** How many times the backend was asked to serve the request. *)
Definition is_containerFetch (e : Event) : bool :=
  match e with
  | CallContainerFetch _ _ => true
  | _ => false
  end.

Definition fetch_count (t : list Event) : nat :=
  List.length (filter is_containerFetch t).

(* ================================================================== *)
(** * Notions for the other paths of the handler *)
(* ================================================================== *)

(** The handler of the same request under other authentication settings. *)
Definition with_auth (this : BrowserRequestHandler) (key dev : option string)
  : BrowserRequestHandler :=
  {| env := {| BROWSER_CONTAINER := BROWSER_CONTAINER (env this);
               API_KEY := key; DEV := dev |};
     request := request this;
     url := url this;
     new_URL := new_URL this |}.

(** The request [handleWebsocketUpgrade] hands to the backend,
    [newRequest], when its header list stores [value] for the session
    identity. *)
Definition upgrade_request (this : BrowserRequestHandler) (value : string)
  : Request :=
  {| req_method := req_method (request this);
     req_url := req_url (request this);
     req_headers := headers_put (req_headers (request this)) "X-Session-ID" value;
     req_body := req_body (request this) |}.

(** Text of ASCII bytes only. *)
Fixpoint ascii_text (s : string) : bool :=
  match s with
  | EmptyString => true
  | String c rest => (nat_of_ascii c <? 128)%nat && ascii_text rest
  end.

(** Calls that reach a backend: the buffered and the raw forward. *)
Definition is_backend_call (e : Event) : bool :=
  match e with
  | CallContainerFetch _ _ | CallFetch _ => true
  | _ => false
  end.

Definition is_get (e : Event) : bool :=
  match e with
  | CallGet _ => true
  | _ => false
  end.

Definition count_events (p : Event -> bool) (t : list Event) : nat :=
  List.length (filter p t).

(** The statuses the discovery handler answers with. *)
Definition discovery_status (st : Z) : Prop :=
  st = 200%Z \/ st = 429%Z \/ st = 500%Z.

(** One of the two capacity phrases occurs in the text. *)
Definition capacity_exhausted (text : string) : bool :=
  (Js.includes text "no Container instance available" ||
   Js.includes text "max concurrent instance count")%bool.

(** The answer to a backend text that is not JSON and names no capacity
    problem. *)
Definition initialization_failed (text : string) : Response :=
  {| status := 500;
     headers := [("content-type", "text/plain;charset=UTF-8")];
     body := Text ("Container initialization failed: " ++ text) |}.

(** The 429 answer to a backend text that names a capacity problem. *)
Definition too_many_429 (text : string) : Response :=
  {| status := 429;
     headers := [("Content-Type", "application/json")];
     body := Json (too_many_sessions text) |}.

(** The 200 answer that carries a JSON value. *)
Definition json_200 (data : json) : Response :=
  {| status := 200;
     headers := [("content-type", "application/json")];
     body := Json data |}.

(** The two answers of a failed authentication check. *)
Definition key_not_configured : AuthResult :=
  {| isAuthenticated := false;
     message := "API_KEY not configured. See README.md for instructions." |}.

Definition key_rejected : AuthResult :=
  {| isAuthenticated := false;
     message := "Invalid or missing API key. Use ?apiKey=YOUR_KEY" |}.

(** The components of the debugger URL of an answer, for a backend URL
    with a host: credentials, host, path and fragment are rewritten, each in
    place; the scheme is kept and the query is the serialisation of the
    updated list. *)
Definition rewritten_parsed (this : BrowserRequestHandler)
  (sessionId : string) (wsUrl : Url.URL) : Url.URL :=
  {| Url.scheme := Url.scheme wsUrl;
     Url.host := rewriteHost this (Url.host wsUrl);
     Url.pathname := rewriteHost this (Url.pathname wsUrl);
     Url.query := Some (Url.serialize_params
                          (Url.params_set (Url.searchParams wsUrl) "sessionId" sessionId));
     Url.fragment := option_map (rewriteHost this) (Url.fragment wsUrl);
     Url.userinfo := rewriteHost this (Url.userinfo wsUrl);
     Url.has_authority := true;
     Url.params := Url.params_set (Url.searchParams wsUrl) "sessionId" sessionId |}.


(* ================================================================== *)
(** * Sample requests *)
(* ================================================================== *)

Module Sample.

Definition json_ok : BackendResponse :=
  {| b_status := 200;
     b_headers := [("content-type", "application/json; charset=UTF-8")];
     b_text := Returned "{}";
     b_json := Returned (JObj [("Browser", JStr "HeadlessChrome/120.0");
                               ("webSocketDebuggerUrl",
                                JStr "ws://127.0.0.1:3000/devtools/browser/b1")]) |}.

(** A discovery payload whose debugger URL names another host and port
    than the internal address. *)
Definition json_other_host : BackendResponse :=
  {| b_status := 200;
     b_headers := [("content-type", "application/json; charset=UTF-8")];
     b_text := Returned "{}";
     b_json := Returned (JObj [("Browser", JStr "HeadlessChrome/120.0");
                               ("webSocketDebuggerUrl",
                                JStr "ws://localhost:9222/devtools/browser/b1")]) |}.

Definition plain (st : Z) (text : string) : BackendResponse :=
  {| b_status := st;
     b_headers := [("content-type", "text/plain"); ("content-length", "64")];
     b_text := Returned text;
     b_json := Thrown "SyntaxError: Unexpected token" |}.

(** A backend answer 304 Not Modified: no body, an entity tag. *)
Definition not_modified (tag : string) : BackendResponse :=
  {| b_status := 304;
     b_headers := [("etag", tag)];
     b_text := Returned "";
     b_json := Thrown "SyntaxError: Unexpected end of JSON input" |}.

Definition stub (r : Outcome BackendResponse) : DurableObjectStub :=
  {| containerFetch := fun _ _ => r;
     fetch := fun _ => Returned {| status := 200; headers := []; body := Text "" |} |}.

Definition namespace (r : Outcome BackendResponse) : DurableObjectNamespace :=
  {| get_by_name := fun _ => Returned (stub r) |}.

(** A namespace whose [get] throws. *)
Definition broken_namespace : DurableObjectNamespace :=
  {| get_by_name := fun _ => Thrown "TypeError: Cannot read properties of undefined (reading 'idFromName')" |}.

Definition env_dev (r : Outcome BackendResponse) : Env :=
  {| BROWSER_CONTAINER := namespace r; API_KEY := None; DEV := Some "true" |}.

Definition env_prod (key : option string) (r : Outcome BackendResponse) : Env :=
  {| BROWSER_CONTAINER := namespace r; API_KEY := key; DEV := None |}.

Definition req (method : string) (u : string) (h : Headers) : Request :=
  {| req_method := method; req_url := u; req_headers := h; req_body := None |}.

Definition url_of (s : string) : Url.URL :=
  match Url.parse s with
  | Some u => u
  | None => Url.mkURL "https" "proxy.example" "/" None None "" true []
  end.

(** The URL constructor of the sample platform. *)
Definition construct (s : string) : Outcome Url.URL :=
  match Url.parse s with
  | Some u => Returned u
  | None => Thrown "TypeError: Invalid URL string."
  end.

(** The handler the [fetch] entry point builds for a request. *)
Definition handler (e : Env) (method : string) (u : string) (h : Headers)
  : BrowserRequestHandler :=
  {| env := e; request := req method u h; url := url_of u;
     new_URL := construct |}.

Definition uuid : string := "3f2b8c1e-5d4a-4e6f-9a7b-0c1d2e3f4a5b".

(** [GET /json/list] in production, without a session identity. *)
Definition list_without_session : BrowserRequestHandler :=
  handler (env_prod (Some "secret") (Returned json_ok))
          "GET" "https://proxy.example/json/list" [].

(** [GET /json/version/] in development mode. *)
Definition discovery_dev : BrowserRequestHandler :=
  handler (env_dev (Returned json_ok)) "GET" "https://proxy.example/json/version/" [].

(** [POST /json/version] in development mode. *)
Definition discovery_post : BrowserRequestHandler :=
  handler (env_dev (Returned json_ok)) "POST" "https://proxy.example/json/version" [].

(** An empty session header next to a [sessionId] query parameter. *)
Definition empty_header_with_param : BrowserRequestHandler :=
  handler (env_prod (Some "secret") (Returned json_ok))
          "GET" "https://proxy.example/json/list?sessionId=abc"
          [("X-Session-ID", "")].

(** A session header next to a different [sessionId] query parameter. *)
Definition header_and_param : BrowserRequestHandler :=
  handler (env_prod (Some "secret") (Returned json_ok))
          "GET" "https://proxy.example/json/list?sessionId=abc"
          [("x-session-id", "s-1")].

(** An empty session header and an empty [sessionId] query parameter. *)
Definition empty_header_empty_param : BrowserRequestHandler :=
  handler (env_prod (Some "secret") (Returned json_ok))
          "GET" "https://proxy.example/json/list?sessionId="
          [("X-Session-ID", "")].

(** Production, key ["secret"], discovery with a wrong key. *)
Definition discovery_wrong_key : BrowserRequestHandler :=
  handler (env_prod (Some "secret") (Returned json_ok))
          "GET" "https://proxy.example/json/version?apiKey=wrong" [].

(** Discovery in development mode against a backend that answers [r]. *)
Definition discovery_against (r : Outcome BackendResponse) : BrowserRequestHandler :=
  handler (env_dev r) "GET" "https://proxy.example/json/version" [].

(** Discovery in development mode when the namespace binding is broken. *)
Definition discovery_broken_namespace : BrowserRequestHandler :=
  {| env := {| BROWSER_CONTAINER := broken_namespace; API_KEY := None;
               DEV := Some "true" |};
     request := req "GET" "https://proxy.example/json/version" [];
     url := url_of "https://proxy.example/json/version";
     new_URL := construct |}.

(** A proxied request: session [s-1], no upgrade, backend answers [r]. *)
Definition proxied (r : Outcome BackendResponse) : BrowserRequestHandler :=
  handler (env_prod (Some "secret") r)
          "GET" "https://proxy.example/json/list" [("X-Session-ID", "s-1")].

(** A JSON answer with an error status whose payload is an array. *)
Definition json_array_503 : BackendResponse :=
  {| b_status := 503;
     b_headers := [("content-type", "application/json"); ("retry-after", "5")];
     b_text := Returned "[1]";
     b_json := Returned (JArr [JNum "1"]) |}.

(** A JSON answer whose payload is [null]. *)
Definition json_null : BackendResponse :=
  {| b_status := 200;
     b_headers := [("content-type", "application/json")];
     b_text := Returned "null";
     b_json := Returned JNull |}.

(** A discovery payload whose debugger URL has another host and already
    names a session. *)
Definition json_stale_session : BackendResponse :=
  {| b_status := 200;
     b_headers := [("content-type", "application/json")];
     b_text := Returned "{}";
     b_json := Returned (JObj [("webSocketDebuggerUrl",
                                JStr "ws://localhost:9222/devtools/browser/b1?sessionId=old&x=1")]) |}.

(** Production, key ["secret"], discovery with the key in a header only. *)
Definition discovery_key_in_header : BrowserRequestHandler :=
  handler (env_prod (Some "secret") (Returned json_ok))
          "GET" "https://proxy.example/json/version"
          [("Authorization", "Bearer secret")].

(** An upgrade request whose session identity, in the query only, ends in
    a space (written [+]). *)
Definition upgrade_padded : BrowserRequestHandler :=
  handler (env_prod (Some "secret") (Returned json_ok))
          "GET" "https://proxy.example/devtools/browser/b1?sessionId=abc+"
          [("Upgrade", "websocket")].

(** An upgrade request whose session identity holds a line feed. *)
Definition upgrade_two_lines : BrowserRequestHandler :=
  handler (env_prod (Some "secret") (Returned json_ok))
          "GET" "https://proxy.example/devtools/browser/b1?sessionId=a%0Ab"
          [("Upgrade", "websocket")].

(** A discovery payload whose debugger URL carries credentials. *)
Definition json_credentials : BackendResponse :=
  {| b_status := 200;
     b_headers := [("content-type", "application/json")];
     b_text := Returned "{}";
     b_json := Returned (JObj [("webSocketDebuggerUrl",
                                JStr "ws://u@127.0.0.1:3000/x")]) |}.

(** The URL object of that debugger URL. *)
Definition url_credentials : Url.URL :=
  Url.mkURL "ws" "127.0.0.1:3000" "/x" None None "u" true [].

(** Discovery in development mode on a platform that reads that URL. *)
Definition discovery_credentials : BrowserRequestHandler :=
  {| env := env_dev (Returned json_credentials);
     request := req "GET" "https://proxy.example/json/version" [];
     url := url_of "https://proxy.example/json/version";
     new_URL := fun s => if s =? "ws://u@127.0.0.1:3000/x"
                         then Returned url_credentials
                         else construct s |}.

(** Discovery in development mode, requested under a host name that holds
    a dollar sign and an ampersand. *)
Definition discovery_dollar_host : BrowserRequestHandler :=
  {| env := env_dev (Returned json_ok);
     request := req "GET" "https://a$&b.example/json/version" [];
     url := Url.mkURL "https" "a$&b.example" "/json/version" None None "" true [];
     new_URL := construct |}.

(** The discovery path requested with a session identity. *)
Definition version_with_session (r : Outcome BackendResponse) : BrowserRequestHandler :=
  handler (env_prod (Some "secret") r)
          "GET" "https://proxy.example/json/version?sessionId=s-3" [].

(** Production without a configured key; the client supplies one anyway. *)
Definition discovery_unconfigured : BrowserRequestHandler :=
  handler (env_prod None (Returned json_ok))
          "GET" "https://proxy.example/json/version?apiKey=anything" [].

End Sample.

(* ================================================================== *)
(** * The request router *)
(* ================================================================== *)

Lemma truthy_Some (s : string) : Js.truthy (Some s) = true <-> s <> "".
Proof.
  simpl. rewrite negb_true_iff, String.eqb_neq. reflexivity.
Qed.

Lemma strict_eq_true (v : option string) (s : string) :
  Js.strict_eq v s = true <-> v = Some s.
Proof.
  destruct v as [x|]; simpl.
  - rewrite String.eqb_eq. split; congruence.
  - split; discriminate.
Qed.

Section Router.

Variable this : BrowserRequestHandler.
Variable uuid : string.

Lemma isJsonVersionRequest_iff :
  isJsonVersionRequest this = true <->
  is_discovery_path (Url.pathname (url this)).
Proof.
  unfold isJsonVersionRequest, is_discovery_path.
  rewrite orb_true_iff, !String.eqb_eq. reflexivity.
Qed.

(** [handle] does what [dispatch] does on the route [route] computes. *)
Lemma handle_dispatch : handle this uuid = dispatch this uuid (route this).
Proof.
  unfold handle, handle_with, route.
  destruct (negb (Js.truthy (extractSessionId this)) && isJsonVersionRequest this)%bool;
    [reflexivity|].
  destruct (negb (Js.truthy (extractSessionId this))); [reflexivity|].
  destruct (Js.strict_eq _ _); reflexivity.
Qed.

Lemma route_no_session :
  no_session this ->
  route this = if isJsonVersionRequest this then ToDiscovery else ToSessionRequired.
Proof.
  unfold no_session, route. intros ->. simpl.
  destruct (isJsonVersionRequest this); reflexivity.
Qed.

Lemma route_discovery_inv :
  route this = ToDiscovery ->
  no_session this /\ isJsonVersionRequest this = true.
Proof.
  unfold route, no_session.
  destruct (Js.truthy (extractSessionId this)); simpl.
  - destruct (Js.strict_eq _ _); discriminate.
  - destruct (isJsonVersionRequest this); [auto | discriminate].
Qed.

(** The proxy route is taken exactly by the requests that carry a session
    identity and do not ask for a WebSocket upgrade. *)
Lemma route_proxy_iff (sid : string) :
  route this = ToProxy sid <->
  extractSessionId this = Some sid /\ sid <> "" /\
  headers_get (req_headers (request this)) "Upgrade" <> Some "websocket".
Proof.
  unfold route.
  destruct (extractSessionId this) as [s|] eqn:Hs; cbn [Js.truthy negb andb Js.the].
  - destruct (String.eqb_spec s "") as [->|Hne]; cbn [negb andb].
    + destruct (isJsonVersionRequest this); split;
        try discriminate; intros [H [Hn _]]; congruence.
    + destruct (Js.strict_eq _ "websocket") eqn:Hu.
      * apply strict_eq_true in Hu. split; [discriminate|].
        intros [_ [_ H]]. contradiction.
      * split.
        -- intros H. injection H as <-. repeat split; auto.
           intros H. apply strict_eq_true in H. congruence.
        -- intros [H _]. congruence.
  - destruct (isJsonVersionRequest this); split;
      try discriminate; intros [H _]; discriminate.
Qed.

End Router.

(** C1, as amended: for a request that presents no session identity, the
    router hands the request to the authenticated discovery handler if
    and only if the URL path is exactly [/json/version] or [/json/version/];
    the HTTP method plays no part.  On that route [handle] is the
    authentication check in front of the discovery handler. *)
Theorem C1_discovery_route_iff_path :
  forall (this : BrowserRequestHandler) (uuid : string),
    no_session this ->
    (route this = ToDiscovery <-> is_discovery_path (Url.pathname (url this))) /\
    (route this = ToDiscovery -> handle this uuid = guarded_discovery this uuid plain_401).
Proof.
  intros this uuid Hns. split.
  - rewrite (route_no_session this Hns), <- isJsonVersionRequest_iff.
    destruct (isJsonVersionRequest this); split; intros H;
      try reflexivity; discriminate.
  - intros Hr. rewrite handle_dispatch, Hr. reflexivity.
Qed.

Lemma C1_discovery_route_iff_path_witness :
  route Sample.discovery_dev = ToDiscovery <-> is_discovery_path "/json/version/".
Proof.
  apply (C1_discovery_route_iff_path Sample.discovery_dev Sample.uuid).
  reflexivity.
Defined.

(** C1, as stated, fails: a POST to [/json/version] without a session
    identity is routed to the discovery handler although its method is not
    GET. *)
Lemma C1_post_reaches_discovery :
  ~ (forall this : BrowserRequestHandler,
        no_session this ->
        (route this = ToDiscovery <->
         req_method (request this) = "GET" /\
         is_discovery_path (Url.pathname (url this)))).
Proof.
  intros H.
  specialize (H Sample.discovery_post eq_refl).
  destruct H as [H _]. destruct (H eq_refl) as [Hm _]. discriminate Hm.
Qed.

(* ================================================================== *)
(** * The authentication check *)
(* ================================================================== *)

(** C2: [checkAuthentication] answers authenticated exactly when development
    mode is on ([DEV === "true"]), or a shared key is configured ([API_KEY]
    set and not empty) and the [apiKey] query parameter equals it.  With
    development mode off and no key configured the answer is unauthenticated
    with the configuration-error message, whatever the request supplies. *)
Theorem C2_authenticated_iff :
  forall this : BrowserRequestHandler,
    (isAuthenticated (checkAuthentication this) = true <->
     dev_mode (env this) \/
     exists k, key_configured (env this) k /\
               Url.searchParams_get (url this) "apiKey" = Some k) /\
    (~ dev_mode (env this) ->
     Js.truthy (API_KEY (env this)) = false ->
     checkAuthentication this =
       {| isAuthenticated := false;
          message := "API_KEY not configured. See README.md for instructions." |}).
Proof.
  intros this. unfold checkAuthentication, dev_mode, key_configured.
  destruct (Js.strict_eq (DEV (env this)) "true") eqn:Hdev.
  - apply strict_eq_true in Hdev. split.
    + simpl. split; auto.
    + intros Hn. contradiction.
  - assert (Hnd : DEV (env this) <> Some "true").
    { intros H. apply strict_eq_true in H. congruence. }
    destruct (API_KEY (env this)) as [k|] eqn:Hk.
    + destruct (Js.truthy (Some k)) eqn:Htk; cbn [negb].
      * split; [|discriminate].
        apply truthy_Some in Htk.
        destruct (Url.searchParams_get (url this) "apiKey") as [a|] eqn:Ha.
        -- destruct (Js.truthy (Some a)) eqn:Hta; cbn [andb Js.same].
           ++ destruct (String.eqb_spec a k) as [->|Hne]; simpl.
              ** split; [intros _|reflexivity]. right. exists k. auto.
              ** split; [discriminate|].
                 intros [H|[k' [[Hk' _] Hg]]]; [contradiction|congruence].
           ++ simpl. split; [discriminate|].
              intros [H|[k' [[Hk' Hne] Hg]]]; [contradiction|].
              injection Hk' as <-. injection Hg as ->.
              apply truthy_Some in Hne. congruence.
        -- simpl. split; [discriminate|].
           intros [H|[k' [_ Hg]]]; [contradiction|discriminate].
      * split; [|reflexivity]. simpl. split; [discriminate|].
        intros [H|[k' [[Hk' Hne] _]]]; [contradiction|].
        injection Hk' as <-. apply truthy_Some in Hne. congruence.
    + simpl. split; [|reflexivity]. split; [discriminate|].
      intros [H|[k' [[Hk' _] _]]]; [contradiction|discriminate].
Qed.

Lemma C2_authenticated_iff_witness :
  checkAuthentication Sample.discovery_unconfigured =
  {| isAuthenticated := false;
     message := "API_KEY not configured. See README.md for instructions." |}.
Proof.
  apply (C2_authenticated_iff Sample.discovery_unconfigured).
  - unfold dev_mode. simpl. discriminate.
  - reflexivity.
Defined.

(* ================================================================== *)
(** * Requests without a session identity *)
(* ================================================================== *)

(** C5: a request that presents no session identity and whose path is not the
    discovery path is answered with status 400 and the plain-text body
    [Session ID required]; nothing is asked of the outside. *)
Theorem C5_session_required :
  forall (this : BrowserRequestHandler) (uuid : string),
    no_session this ->
    ~ is_discovery_path (Url.pathname (url this)) ->
    handle this uuid =
      ([], Returned {| status := 400;
                       headers := [("content-type", "text/plain;charset=UTF-8")];
                       body := Text "Session ID required" |}).
Proof.
  intros this uuid Hns Hpath.
  rewrite handle_dispatch, (route_no_session this Hns).
  destruct (isJsonVersionRequest this) eqn:Hd.
  - apply isJsonVersionRequest_iff in Hd. contradiction.
  - reflexivity.
Qed.

Lemma C5_session_required_witness :
  handle Sample.list_without_session Sample.uuid =
    ([], Returned {| status := 400;
                     headers := [("content-type", "text/plain;charset=UTF-8")];
                     body := Text "Session ID required" |}).
Proof.
  apply (C5_session_required Sample.list_without_session Sample.uuid).
  - reflexivity.
  - unfold is_discovery_path. simpl. intros [H|H]; discriminate.
Defined.

(* ================================================================== *)
(** * Session resolution *)
(* ================================================================== *)

Lemma or_truthy (a b : option string) : Js.truthy a = true -> Js.or a b = a.
Proof. unfold Js.or. intros ->. reflexivity. Qed.

Lemma or_blank (a b : option string) : blank a -> Js.or a b = b.
Proof. unfold Js.or. intros [->| ->]; reflexivity. Qed.

Lemma blank_falsy (a : option string) : blank a <-> Js.truthy a = false.
Proof.
  unfold blank. destruct a as [s|]; simpl.
  - rewrite negb_false_iff, String.eqb_eq. split.
    + intros [H|H]; congruence.
    + intros ->. auto.
  - split; auto.
Qed.

(** C8, as amended: the [X-Session-ID] header has priority over the
    [sessionId] query parameter.  When the header is present with a value
    that is not empty, that value is the session identity; otherwise (header
    missing or empty) the result is what the query parameter holds; when
    neither is present the result is absent. *)
Theorem C8_header_before_param :
  forall this : BrowserRequestHandler,
    (forall v, session_header this = Some v -> v <> "" ->
               extractSessionId this = Some v) /\
    (blank (session_header this) -> extractSessionId this = session_param this) /\
    (session_header this = None -> session_param this = None ->
     extractSessionId this = None).
Proof.
  intros this. unfold extractSessionId, session_header, session_param.
  repeat split.
  - intros v Hv Hne. rewrite Hv. apply or_truthy. now apply truthy_Some.
  - apply or_blank.
  - intros -> ->. reflexivity.
Qed.

Lemma C8_header_before_param_witness :
  extractSessionId Sample.header_and_param = Some "s-1".
Proof.
  apply (proj1 (C8_header_before_param Sample.header_and_param) "s-1").
  - reflexivity.
  - discriminate.
Defined.

(** C8, as stated, fails: with the header present but empty and
    [?sessionId=abc] in the query, the session identity is [abc], not the
    header's value. *)
Lemma C8_empty_header_is_skipped :
  ~ (forall (this : BrowserRequestHandler) (v : string),
        session_header this = Some v -> extractSessionId this = Some v).
Proof.
  intros H.
  specialize (H Sample.empty_header_with_param "" eq_refl).
  discriminate H.
Qed.

(** C10: an empty session value counts as absent.  An empty [X-Session-ID]
    header makes resolution fall through to the [sessionId] query parameter;
    when both inputs are empty or missing the request carries no session
    identity, and [handle] answers through guarded discovery or with the 400
    response, never through a backend of a client-chosen session. *)
Theorem C10_empty_session_is_absent :
  forall (this : BrowserRequestHandler) (uuid : string),
    (session_header this = Some "" ->
     extractSessionId this = session_param this) /\
    (blank (session_header this) -> blank (session_param this) ->
     no_session this /\
     (route this = ToDiscovery \/ route this = ToSessionRequired) /\
     handle this uuid =
       if isJsonVersionRequest this then guarded_discovery this uuid plain_401
       else session_required).
Proof.
  intros this uuid. split.
  - intros Hh. apply or_blank. right. exact Hh.
  - intros Hh Hp.
    assert (Hns : no_session this).
    { unfold no_session, extractSessionId.
      fold (session_header this) (session_param this).
      rewrite (or_blank _ _ Hh). now apply blank_falsy. }
    split; [exact Hns|].
    rewrite handle_dispatch, (route_no_session this Hns).
    destruct (isJsonVersionRequest this); auto.
Qed.

Lemma C10_empty_session_is_absent_witness :
  no_session Sample.empty_header_empty_param /\
  (route Sample.empty_header_empty_param = ToDiscovery \/
   route Sample.empty_header_empty_param = ToSessionRequired) /\
  handle Sample.empty_header_empty_param Sample.uuid = session_required.
Proof.
  apply (C10_empty_session_is_absent Sample.empty_header_empty_param Sample.uuid).
  - right. reflexivity.
  - right. reflexivity.
Defined.

(* ================================================================== *)
(** * Authentication failures *)
(* ================================================================== *)

Section Avoids.

Context {A B : Type}.
Variable p : Event -> bool.

Lemma events_bind (m : M A) (k : A -> M B) :
  events (bind m k) =
  match outcome m with
  | Returned a => (events m ++ events (k a))%list
  | Thrown _ => events m
  end.
Proof.
  destruct m as [t [a|e]]; simpl; [|reflexivity].
  destruct (k a); reflexivity.
Qed.

Lemma events_try_catch (m : M A) (h : string -> M A) :
  events (try_catch m h) =
  match outcome m with
  | Returned _ => events m
  | Thrown e => (events m ++ events (h e))%list
  end.
Proof.
  destruct m as [t [a|e]]; simpl; [reflexivity|].
  destruct (h e); reflexivity.
Qed.

Lemma avoids_bind (m : M A) (k : A -> M B) :
  avoids p m -> (forall a, avoids p (k a)) -> avoids p (bind m k).
Proof.
  unfold avoids. intros Hm Hk. rewrite events_bind.
  destruct (outcome m); [|exact Hm].
  rewrite forallb_app, Hm, Hk. reflexivity.
Qed.

Lemma avoids_try_catch (m : M A) (h : string -> M A) :
  avoids p m -> (forall e, avoids p (h e)) -> avoids p (try_catch m h).
Proof.
  unfold avoids. intros Hm Hh. rewrite events_try_catch.
  destruct (outcome m); [exact Hm|].
  rewrite forallb_app, Hm, Hh. reflexivity.
Qed.

Lemma avoids_lift (o : Outcome A) : avoids p (lift o).
Proof. reflexivity. Qed.

Lemma avoids_In (m : M A) (e : Event) :
  avoids p m -> p e = true -> ~ In e (events m).
Proof.
  unfold avoids. intros Hs He Hin.
  rewrite forallb_forall in Hs. specialize (Hs _ Hin).
  rewrite He in Hs. discriminate Hs.
Qed.

End Avoids.

(** Peel one layer of a handler body when showing that it [avoids] a kind of
    event. *)
Ltac avoid_step :=
  lazymatch goal with
  | |- avoids _ (bind _ _) => apply avoids_bind; [|intros ?]
  | |- avoids _ (try_catch _ _) => apply avoids_try_catch; [|intros ?]
  | |- avoids _ (lift _) => apply avoids_lift
  | |- avoids _ (emit _) => reflexivity
  | |- avoids _ (if ?b then _ else _) => destruct b
  end.

Section AuthFailures.

Variable this : BrowserRequestHandler.
Variable uuid : string.

Lemma namespace_get_silent (name : string) : avoids is_auth_log (namespace_get this name).
Proof. unfold namespace_get. repeat avoid_step. Qed.

Lemma call_containerFetch_silent (c : DurableObjectStub) :
  avoids is_auth_log (call_containerFetch this c).
Proof. unfold call_containerFetch. repeat avoid_step. Qed.

Lemma handleJsonVersionRequest_silent :
  avoids is_auth_log (handleJsonVersionRequest this uuid).
Proof.
  unfold handleJsonVersionRequest, discovery_attempt, discovery_failed,
    process_discovery_response.
  cbv zeta.
  avoid_step; [apply namespace_get_silent|].
  avoid_step.
  - avoid_step; [apply call_containerFetch_silent|].
    repeat avoid_step.
  - repeat avoid_step.
Qed.

Lemma containerFetchWithRewrite_silent (c : DurableObjectStub) :
  avoids is_auth_log (containerFetchWithRewrite this c).
Proof.
  unfold containerFetchWithRewrite. cbv zeta.
  avoid_step; [apply call_containerFetch_silent|].
  repeat avoid_step.
Qed.

Lemma handleWebsocketUpgrade_silent (c : DurableObjectStub) (sid : string) :
  avoids is_auth_log (handleWebsocketUpgrade this c sid).
Proof. unfold handleWebsocketUpgrade. cbv zeta. repeat avoid_step. Qed.

(** On the discovery route a failed check is answered by the structured
    401 and nothing else happens. *)
Lemma guarded_discovery_rejects :
  route this = ToDiscovery ->
  isAuthenticated (checkAuthentication this) = false ->
  handle this uuid =
    ([ConsoleLogAuth (checkAuthentication this)],
     Returned (structured_401 (checkAuthentication this))).
Proof.
  intros Hr Ha. rewrite handle_dispatch, Hr. simpl.
  destruct (route_discovery_inv this Hr) as [_ Hd].
  unfold guarded_discovery. rewrite Ha, Hd. reflexivity.
Qed.

(** The plain-text 401 of [handle] is dead code: whatever stands in its
    place, [handle] behaves the same. *)
Lemma plain_401_unreachable (other : AuthResult -> M Response) :
  handle_with this uuid other = handle this uuid.
Proof.
  unfold handle, handle_with.
  destruct (negb (Js.truthy (extractSessionId this)) && isJsonVersionRequest this)%bool
    eqn:Hc; [|reflexivity].
  apply andb_true_iff in Hc. destruct Hc as [_ Hd].
  unfold guarded_discovery. rewrite Hd. reflexivity.
Qed.

(** A reported authentication failure pins down the whole run. *)
Lemma auth_log_inv (r : AuthResult) :
  In (ConsoleLogAuth r) (events (handle this uuid)) ->
  route this = ToDiscovery /\
  r = checkAuthentication this /\
  isAuthenticated r = false.
Proof.
  rewrite handle_dispatch. destruct (route this) as [| |sid|sid] eqn:Hr;
    cbn [dispatch].
  - unfold guarded_discovery.
    destruct (isAuthenticated (checkAuthentication this)) eqn:Ha; cbn [negb].
    + intros Hin. exfalso.
      exact (avoids_In _ _ (ConsoleLogAuth r) handleJsonVersionRequest_silent eq_refl Hin).
    + destruct (route_discovery_inv this Hr) as [_ Hd]. rewrite Hd. simpl.
      intros [H|[]]. injection H as <-. auto.
  - intros [].
  - intros Hin. exfalso. revert Hin. apply (avoids_In is_auth_log); [|reflexivity].
    apply avoids_bind; [apply namespace_get_silent|].
    intros c. apply handleWebsocketUpgrade_silent.
  - intros Hin. exfalso. revert Hin. apply (avoids_In is_auth_log); [|reflexivity].
    apply avoids_bind; [apply namespace_get_silent|].
    intros c. apply containerFetchWithRewrite_silent.
Qed.

End AuthFailures.

(** C9: every authentication failure of the router is answered with the
    structured 401 JSON body [{error: "Authentication required", message,
    instructions}]: a failed check on the discovery route gives exactly that
    answer, and every run that reports a failed check is such a run.  The
    plain-text 401 of [handle] is unreachable, since the check runs only on
    the discovery route, whose path test is repeated inside the failure
    branch: replacing that statement by any other leaves [handle]
    unchanged. *)
Theorem C9_auth_failure_is_structured_401 :
  forall (this : BrowserRequestHandler) (uuid : string),
    (forall other : AuthResult -> M Response,
        handle_with this uuid other = handle this uuid) /\
    (route this = ToDiscovery -> is_discovery_path (Url.pathname (url this))) /\
    (route this = ToDiscovery ->
     isAuthenticated (checkAuthentication this) = false ->
     handle this uuid =
       ([ConsoleLogAuth (checkAuthentication this)],
        Returned (structured_401 (checkAuthentication this)))) /\
    (forall r : AuthResult,
        In (ConsoleLogAuth r) (events (handle this uuid)) ->
        r = checkAuthentication this /\
        is_discovery_path (Url.pathname (url this)) /\
        handle this uuid = ([ConsoleLogAuth r], Returned (structured_401 r))).
Proof.
  intros this uuid. repeat split.
  - apply plain_401_unreachable.
  - intros Hr. apply isJsonVersionRequest_iff.
    apply (route_discovery_inv this Hr).
  - apply guarded_discovery_rejects.
  - destruct (auth_log_inv this uuid r H) as [_ [Hr _]]. exact Hr.
  - destruct (auth_log_inv this uuid r H) as [Hr _].
    apply isJsonVersionRequest_iff. apply (route_discovery_inv this Hr).
  - destruct (auth_log_inv this uuid r H) as [Hr [-> Ha]].
    apply guarded_discovery_rejects; assumption.
Qed.

Lemma C9_auth_failure_is_structured_401_witness :
  handle Sample.discovery_wrong_key Sample.uuid =
    ([ConsoleLogAuth (checkAuthentication Sample.discovery_wrong_key)],
     Returned (structured_401 (checkAuthentication Sample.discovery_wrong_key))).
Proof.
  apply (proj1 (proj2 (proj2 (C9_auth_failure_is_structured_401
                                Sample.discovery_wrong_key Sample.uuid))));
    reflexivity.
Defined.

(* ================================================================== *)
(** * The discovery handler: backend answers that are not JSON *)
(* ================================================================== *)

Section NonJson.

Variable this : BrowserRequestHandler.
Variable uuid : string.
Variable resp : BackendResponse.
Variable text : string.

Hypothesis Hanswer : backend_answers this uuid resp.
Hypothesis Hnot_json : not_json resp.
Hypothesis Htext : b_text resp = Returned text.

Lemma non_json_answer :
  handleJsonVersionRequest this uuid =
    ([CallGet uuid;
      CallContainerFetch (upstream_url this) (request this);
      ConsoleError ("Non-JSON response from container: " ++ text)],
     if (Js.includes text "no Container instance available" ||
         Js.includes text "max concurrent instance count")%bool
     then Returned {| status := 429;
                      headers := [("Content-Type", "application/json")];
                      body := Json (too_many_sessions text) |}
     else Returned {| status := 500;
                      headers := [("content-type", "text/plain;charset=UTF-8")];
                      body := Text ("Container initialization failed: " ++ text) |}).
Proof.
  destruct Hanswer as [c [Hget Hfetch]].
  unfold handleJsonVersionRequest, namespace_get. cbv zeta.
  rewrite Hget. cbn [bind emit lift app].
  unfold discovery_attempt, call_containerFetch. cbv zeta.
  rewrite Hfetch. cbn [bind emit lift app].
  unfold process_discovery_response. cbv zeta.
  unfold not_json in Hnot_json. rewrite Hnot_json.
  cbn [negb]. rewrite Htext. cbn [bind emit lift app].
  destruct (Js.includes text "no Container instance available" ||
            Js.includes text "max concurrent instance count")%bool;
    reflexivity.
Qed.

End NonJson.

(** C4: when the backend's discovery answer is not JSON and its body contains
    [max concurrent instance count], the discovery handler returns status 429
    with a JSON body whose [error] is [Too many concurrent browser sessions]
    and whose [details] is the raw body; when the body contains neither
    capacity phrase, it returns status 500 with the text
    [Container initialization failed: ] followed by the raw body. *)
Theorem C4_non_json_answer :
  forall (this : BrowserRequestHandler) (uuid : string)
         (resp : BackendResponse) (text : string),
    backend_answers this uuid resp ->
    not_json resp ->
    b_text resp = Returned text ->
    (Js.includes text "max concurrent instance count" = true ->
     outcome (handleJsonVersionRequest this uuid) =
       Returned {| status := 429;
                   headers := [("Content-Type", "application/json")];
                   body := Json (JObj [("error", JStr "Too many concurrent browser sessions");
                                       ("message",
                                        JStr "Maximum concurrent container limit reached. Please try again later.");
                                       ("details", JStr text)]) |}) /\
    (Js.includes text "no Container instance available" = false ->
     Js.includes text "max concurrent instance count" = false ->
     outcome (handleJsonVersionRequest this uuid) =
       Returned {| status := 500;
                   headers := [("content-type", "text/plain;charset=UTF-8")];
                   body := Text ("Container initialization failed: " ++ text) |}).
Proof.
  intros this uuid resp text Ha Hn Ht.
  rewrite (non_json_answer this uuid resp text Ha Hn Ht). split.
  - intros ->. rewrite orb_true_r. reflexivity.
  - intros -> ->. reflexivity.
Qed.

Lemma C4_non_json_answer_witness :
  outcome (handleJsonVersionRequest
             (Sample.discovery_against
                (Returned (Sample.plain 500 "Error: max concurrent instance count reached")))
             Sample.uuid) =
    Returned {| status := 429;
                headers := [("Content-Type", "application/json")];
                body := Json (JObj [("error", JStr "Too many concurrent browser sessions");
                                    ("message",
                                     JStr "Maximum concurrent container limit reached. Please try again later.");
                                    ("details",
                                     JStr "Error: max concurrent instance count reached")]) |}.
Proof.
  apply (C4_non_json_answer
           (Sample.discovery_against
              (Returned (Sample.plain 500 "Error: max concurrent instance count reached")))
           Sample.uuid
           (Sample.plain 500 "Error: max concurrent instance count reached")
           "Error: max concurrent instance count reached").
  - eexists. split; reflexivity.
  - reflexivity.
  - reflexivity.
  - reflexivity.
Defined.

(* ================================================================== *)
(** * The discovery handler: errors *)
(* ================================================================== *)

Lemma fetch_count_app (t1 t2 : list Event) :
  fetch_count (t1 ++ t2) = fetch_count t1 + fetch_count t2.
Proof.
  unfold fetch_count. rewrite filter_app, length_app. reflexivity.
Qed.

Lemma fetch_count_cons (e : Event) (t : list Event) :
  fetch_count (e :: t) = (if is_containerFetch e then 1 else 0) + fetch_count t.
Proof.
  unfold fetch_count. simpl. destruct (is_containerFetch e); reflexivity.
Qed.

Lemma fetch_count_avoids {A} (m : M A) :
  avoids is_containerFetch m -> fetch_count (events m) = 0.
Proof.
  unfold avoids, fetch_count. generalize (events m) as t.
  induction t as [|e t IH]; simpl; [reflexivity|].
  intros H. apply andb_true_iff in H. destruct H as [He Ht].
  apply negb_true_iff in He. rewrite He. auto.
Qed.

Section DiscoveryErrors.

Variable this : BrowserRequestHandler.
Variable uuid : string.

Lemma process_avoids_fetch (resp : BackendResponse) :
  avoids is_containerFetch (process_discovery_response this uuid resp).
Proof.
  unfold process_discovery_response. cbv zeta. repeat avoid_step.
Qed.

Lemma handle_not_obtained (e : string) :
  get_by_name (BROWSER_CONTAINER (env this)) uuid = Thrown e ->
  handleJsonVersionRequest this uuid = ([CallGet uuid], Thrown e).
Proof.
  intros Hget. unfold handleJsonVersionRequest, namespace_get. cbv zeta.
  rewrite Hget. reflexivity.
Qed.

Variable container : DurableObjectStub.
Hypothesis Hget :
  get_by_name (BROWSER_CONTAINER (env this)) uuid = Returned container.

Lemma guarded_error_caught (e : string) :
  thrown_in_guarded_steps this uuid container e ->
  outcome (handleJsonVersionRequest this uuid) = Returned (failed_500 e) /\
  fetch_count (events (handleJsonVersionRequest this uuid)) = 1 /\
  In (ConsoleError ("Error with container " ++ uuid ++ ": " ++ e))
     (events (handleJsonVersionRequest this uuid)).
Proof.
  intros Hthrown.
  unfold handleJsonVersionRequest, namespace_get. cbv zeta.
  rewrite Hget. cbn [bind emit lift app].
  unfold discovery_attempt, call_containerFetch.
  destruct Hthrown as [Hf | [resp [Hf Hp]]]; rewrite Hf; cbn [bind emit lift app].
  - cbn. repeat split; auto.
  - pose proof (fetch_count_avoids _ (process_avoids_fetch resp)) as Hc.
    destruct (process_discovery_response this uuid resp) as [t o].
    simpl in Hp, Hc. subst o. cbn.
    repeat split.
    + change (fetch_count (CallContainerFetch (upstream_url this) (request this)
                             :: (t ++ [ConsoleError ("Error with container " ++ uuid ++ ": " ++ e)])%list) = 1).
      rewrite fetch_count_cons, fetch_count_app, Hc. reflexivity.
    + right. right. apply in_or_app. right. left. reflexivity.
Qed.

End DiscoveryErrors.

(** C6, as amended: every error thrown while the discovery request is
    forwarded to the backend handle or while the backend's answer is processed
    (steps 4 and 5) is caught and converted into a 500 response that carries
    the error text; the error is logged with the session identity and the
    backend is asked exactly once.  Obtaining the backend handle (step 3)
    happens before the guarded region: an error thrown there leaves
    [handleJsonVersionRequest] as thrown. *)
Theorem C6_guarded_errors_become_500 :
  forall (this : BrowserRequestHandler) (uuid : string) (e : string),
    (forall container,
        get_by_name (BROWSER_CONTAINER (env this)) uuid = Returned container ->
        thrown_in_guarded_steps this uuid container e ->
        outcome (handleJsonVersionRequest this uuid) = Returned (failed_500 e) /\
        fetch_count (events (handleJsonVersionRequest this uuid)) = 1 /\
        In (ConsoleError ("Error with container " ++ uuid ++ ": " ++ e))
           (events (handleJsonVersionRequest this uuid))) /\
    (get_by_name (BROWSER_CONTAINER (env this)) uuid = Thrown e ->
     handleJsonVersionRequest this uuid = ([CallGet uuid], Thrown e)).
Proof.
  intros this uuid e. split.
  - intros container Hget Hthrown.
    exact (guarded_error_caught this uuid container Hget e Hthrown).
  - apply handle_not_obtained.
Qed.

Lemma C6_guarded_errors_become_500_witness :
  outcome (handleJsonVersionRequest
             (Sample.discovery_against (Thrown "Error: Network connection lost."))
             Sample.uuid) =
    Returned (failed_500 "Error: Network connection lost.") /\
  fetch_count (events (handleJsonVersionRequest
                         (Sample.discovery_against (Thrown "Error: Network connection lost."))
                         Sample.uuid)) = 1 /\
  In (ConsoleError ("Error with container " ++ Sample.uuid ++ ": " ++
                    "Error: Network connection lost."))
     (events (handleJsonVersionRequest
                (Sample.discovery_against (Thrown "Error: Network connection lost."))
                Sample.uuid)).
Proof.
  apply (proj1 (C6_guarded_errors_become_500
                  (Sample.discovery_against (Thrown "Error: Network connection lost."))
                  Sample.uuid "Error: Network connection lost.")
               (Sample.stub (Thrown "Error: Network connection lost."))).
  - reflexivity.
  - left. reflexivity.
Defined.

(** C6, as stated, fails for step 3: when obtaining the backend handle
    throws, no 500 response is produced; the error leaves the handler. *)
Lemma C6_handle_error_escapes :
  ~ (forall (this : BrowserRequestHandler) (uuid e : string),
        get_by_name (BROWSER_CONTAINER (env this)) uuid = Thrown e ->
        exists r, outcome (handleJsonVersionRequest this uuid) = Returned r /\
                  status r = 500%Z).
Proof.
  intros H.
  destruct (H Sample.discovery_broken_namespace Sample.uuid _ eq_refl) as [r [Hr _]].
  discriminate Hr.
Qed.

(* ================================================================== *)
(** * The proxy forwarder *)
(* ================================================================== *)

Section HeaderLists.

Lemma name_eqb_true (a b : string) : name_eqb a b = true <-> Js.lower a = Js.lower b.
Proof. unfold name_eqb. apply String.eqb_eq. Qed.

Lemma name_eqb_false_trans (k a b : string) :
  name_eqb a b = false -> name_eqb k a = true -> name_eqb k b = false.
Proof.
  intros Hab Hka. apply name_eqb_true in Hka.
  destruct (name_eqb k b) eqn:Hkb; [|reflexivity].
  apply name_eqb_true in Hkb.
  assert (H : name_eqb a b = true) by (apply name_eqb_true; congruence).
  congruence.
Qed.

Lemma headers_values_app (h1 h2 : Headers) (name : string) :
  headers_values (h1 ++ h2)%list name =
  (headers_values h1 name ++ headers_values h2 name)%list.
Proof. unfold headers_values. rewrite filter_app, map_app. reflexivity. Qed.

(** Deleting a header removes every entry of that name... *)
Lemma headers_values_delete_same (h : Headers) (name : string) :
  headers_values (headers_delete h name) name = [].
Proof.
  unfold headers_values, headers_delete.
  induction h as [|[k v] h IH]; simpl; [reflexivity|].
  destruct (name_eqb k name) eqn:Hk; simpl; [exact IH|].
  rewrite Hk. exact IH.
Qed.

(** ... and leaves the entries of every other name as they were. *)
Lemma headers_values_delete_other (h : Headers) (gone name : string) :
  name_eqb name gone = false ->
  headers_values (headers_delete h gone) name = headers_values h name.
Proof.
  intros Hne. unfold headers_values, headers_delete.
  induction h as [|[k v] h IH]; simpl; [reflexivity|].
  destruct (name_eqb k gone) eqn:Hk; simpl.
  - destruct (name_eqb k name) eqn:Hkn; [|exact IH].
    rewrite (name_eqb_false_trans k name gone Hne Hkn) in Hk. discriminate Hk.
  - destruct (name_eqb k name); simpl; rewrite IH; reflexivity.
Qed.

Lemma headers_has_values (h : Headers) (name : string) :
  headers_has h name = false <-> headers_values h name = [].
Proof.
  unfold headers_has, headers_values.
  induction h as [|[k v] h IH]; simpl; [tauto|].
  destruct (name_eqb k name); simpl; [|exact IH].
  split; discriminate.
Qed.

Lemma headers_get_None (h : Headers) (name : string) :
  headers_get h name = None <-> headers_values h name = [].
Proof.
  unfold headers_get. destruct (headers_values h name); split;
    intros H; try reflexivity; discriminate H.
Qed.

End HeaderLists.

Section Proxy.

Variable this : BrowserRequestHandler.
Variable uuid : string.

Lemma outgoing_no_content_length (resp : BackendResponse) :
  headers_get (outgoing resp) "content-length" = None.
Proof.
  apply headers_get_None. unfold outgoing. cbv zeta.
  destruct (null_body_status (b_status resp));
    [apply headers_values_delete_same|].
  destruct (headers_has _ "content-type").
  - apply headers_values_delete_same.
  - rewrite headers_values_app, headers_values_delete_same. reflexivity.
Qed.

Lemma outgoing_keeps (resp : BackendResponse) (name v : string) :
  name_eqb name "content-length" = false ->
  headers_get (b_headers resp) name = Some v ->
  headers_get (outgoing resp) name = Some v.
Proof.
  intros Hne Hget. unfold outgoing. cbv zeta.
  destruct (null_body_status (b_status resp)).
  { unfold headers_get in *.
    rewrite (headers_values_delete_other _ _ _ Hne). exact Hget. }
  destruct (headers_has _ "content-type") eqn:Hct.
  - unfold headers_get in *.
    rewrite (headers_values_delete_other _ _ _ Hne). exact Hget.
  - unfold headers_get in *.
    rewrite headers_values_app, (headers_values_delete_other _ _ _ Hne).
    destruct (name_eqb name "content-type") eqn:Hn.
    + exfalso. apply headers_has_values in Hct.
      assert (Hsame : headers_values (headers_delete (b_headers resp) "content-length")
                        name = []).
      { unfold headers_values in *.
        rewrite <- Hct. f_equal. apply filter_ext. intros [k w]. simpl.
        unfold name_eqb in *. apply String.eqb_eq in Hn. rewrite Hn. reflexivity. }
      rewrite (headers_values_delete_other _ _ _ Hne) in Hsame.
      rewrite Hsame in Hget. discriminate Hget.
    + assert (Hnone : headers_values [("content-type", "text/plain;charset=UTF-8")] name = []).
      { unfold headers_values. simpl.
        replace (name_eqb "content-type" name) with false; [reflexivity|].
        unfold name_eqb in *. rewrite String.eqb_sym. symmetry. exact Hn. }
      rewrite Hnone, app_nil_r. exact Hget.
Qed.

Lemma proxy_run (sid : string) :
  route this = ToProxy sid ->
  handle this uuid =
    (container <- getContainer this sid ;; containerFetchWithRewrite this container).
Proof. intros Hr. rewrite handle_dispatch, Hr. reflexivity. Qed.

Lemma proxy_returns_inv (sid : string) (out : Response) :
  route this = ToProxy sid ->
  outcome (handle this uuid) = Returned out ->
  exists resp text,
    backend_answers this sid resp /\
    b_text resp = Returned text /\
    accepts (b_status resp) (rewriteHost this text) = true /\
    out = {| status := b_status resp; headers := outgoing resp;
             body := proxied_body resp (rewriteHost this text) |}.
Proof.
  intros Hr. rewrite (proxy_run sid Hr).
  unfold getContainer, namespace_get, containerFetchWithRewrite, call_containerFetch,
    backend_answers.
  cbv zeta.
  destruct (get_by_name (BROWSER_CONTAINER (env this)) sid) as [c|e] eqn:Hget;
    cbn [bind emit lift app]; [|discriminate].
  destruct (containerFetch c (upstream_url this) (request this)) as [resp|e] eqn:Hf;
    cbn [bind emit lift app]; [|discriminate].
  destruct (b_text resp) as [text|e] eqn:Ht; cbn [bind emit lift app]; [|discriminate].
  unfold new_Response.
  destruct ((b_status resp <? 200)%Z || (599 <? b_status resp)%Z)%bool eqn:Hrange;
    [discriminate|].
  destruct (null_body_status (b_status resp)) eqn:Hnull;
    cbn [body_is_empty body_content_type].
  - destruct (rewriteHost this text =? "") eqn:He; [|discriminate].
    cbn. intros H. injection H as <-.
    exists resp, text. split; [exists c; auto|]. split; [exact Ht|].
    unfold accepts, outgoing, proxied_body. cbv zeta.
    rewrite Hrange, Hnull, He. split; reflexivity.
  - cbn. intros H. injection H as <-.
    exists resp, text. split; [exists c; auto|]. split; [exact Ht|].
    unfold accepts, outgoing, proxied_body, with_content_type. cbv zeta.
    rewrite Hrange, Hnull. split; reflexivity.
Qed.

Lemma proxy_returns (sid : string) (resp : BackendResponse) (text : string) :
  route this = ToProxy sid ->
  backend_answers this sid resp ->
  b_text resp = Returned text ->
  accepts (b_status resp) (rewriteHost this text) = true ->
  outcome (handle this uuid) =
    Returned {| status := b_status resp; headers := outgoing resp;
                body := proxied_body resp (rewriteHost this text) |}.
Proof.
  intros Hr [c [Hget Hf]] Ht Hst. rewrite (proxy_run sid Hr).
  unfold getContainer, namespace_get, containerFetchWithRewrite, call_containerFetch.
  cbv zeta. rewrite Hget. cbn [bind emit lift app].
  rewrite Hf. cbn [bind emit lift app]. rewrite Ht. cbn [bind emit lift app].
  unfold accepts in Hst. apply andb_true_iff in Hst.
  destruct Hst as [H1 H2]. apply negb_true_iff in H1.
  unfold new_Response, outgoing, proxied_body, with_content_type. cbv zeta.
  rewrite H1.
  destruct (null_body_status (b_status resp)); cbn [body_is_empty body_content_type].
  - cbn [negb orb] in H2. rewrite H2. reflexivity.
  - reflexivity.
Qed.

Lemma proxy_throws (sid : string) (resp : BackendResponse) (text : string) :
  route this = ToProxy sid ->
  backend_answers this sid resp ->
  b_text resp = Returned text ->
  accepts (b_status resp) (rewriteHost this text) = false ->
  exists e, outcome (handle this uuid) = Thrown e.
Proof.
  intros Hr [c [Hget Hf]] Ht Hst. rewrite (proxy_run sid Hr).
  unfold getContainer, namespace_get, containerFetchWithRewrite, call_containerFetch.
  cbv zeta. rewrite Hget. cbn [bind emit lift app].
  rewrite Hf. cbn [bind emit lift app]. rewrite Ht. cbn [bind emit lift app].
  unfold accepts in Hst. unfold new_Response.
  destruct ((b_status resp <? 200)%Z || (599 <? b_status resp)%Z)%bool;
    [eexists; reflexivity|].
  destruct (null_body_status (b_status resp)); cbn [negb andb orb] in Hst;
    [|discriminate Hst].
  cbn [body_is_empty]. rewrite Hst. eexists. reflexivity.
Qed.

End Proxy.

(** C7: for a proxied request (session identity present, no WebSocket
    upgrade) the response that goes out has no [content-length] header, has
    the backend's status code, and carries every other header of the backend's
    response with its value unchanged.  Such a response goes out exactly when
    the backend answered, its body could be read, and [new Response] accepts
    the backend's status with the rewritten text: a status in 200..599, and
    under 204, 205 and 304 an empty text, which goes out as no body.  In every
    other case no response goes out: the call throws. *)
Theorem C7_proxy_drops_content_length :
  forall (this : BrowserRequestHandler) (uuid sid : string),
    route this = ToProxy sid ->
    (forall out : Response,
        outcome (handle this uuid) = Returned out ->
        headers_get (headers out) "content-length" = None /\
        exists resp,
          backend_answers this sid resp /\
          status out = b_status resp /\
          forall name v,
            name_eqb name "content-length" = false ->
            headers_get (b_headers resp) name = Some v ->
            headers_get (headers out) name = Some v) /\
    (forall (resp : BackendResponse) (text : string),
        backend_answers this sid resp ->
        b_text resp = Returned text ->
        accepts (b_status resp) (rewriteHost this text) = true ->
        exists out,
          outcome (handle this uuid) = Returned out /\
          status out = b_status resp /\
          body out = proxied_body resp (rewriteHost this text)) /\
    (forall (resp : BackendResponse) (text : string),
        backend_answers this sid resp ->
        b_text resp = Returned text ->
        accepts (b_status resp) (rewriteHost this text) = false ->
        exists e, outcome (handle this uuid) = Thrown e).
Proof.
  intros this uuid sid Hr. split; [|split].
  - intros out Hout.
    destruct (proxy_returns_inv this uuid sid out Hr Hout)
      as [resp [text [Hans [_ [_ ->]]]]].
    cbn [headers status]. split.
    + apply outgoing_no_content_length.
    + exists resp. repeat split; [exact Hans|].
      intros name v. apply outgoing_keeps.
  - intros resp text Hans Ht Hst.
    eexists. split; [|split].
    + exact (proxy_returns this uuid sid resp text Hr Hans Ht Hst).
    + reflexivity.
    + reflexivity.
  - intros resp text Hans Ht Hst.
    exact (proxy_throws this uuid sid resp text Hr Hans Ht Hst).
Qed.

Lemma C7_proxy_drops_content_length_witness :
  exists out,
    outcome (handle (Sample.proxied (Returned (Sample.not_modified "etag-1")))
                    Sample.uuid) = Returned out /\
    status out = 304%Z /\
    body out = NoBody.
Proof.
  apply (proj1 (proj2 (C7_proxy_drops_content_length
                         (Sample.proxied (Returned (Sample.not_modified "etag-1")))
                         Sample.uuid "s-1" eq_refl))
               (Sample.not_modified "etag-1") "").
  - eexists. split; reflexivity.
  - reflexivity.
  - reflexivity.
Defined.

(* ================================================================== *)
(** * Strings: append, prefix, global replacement *)
(* ================================================================== *)

Lemma append_assoc (a b c : string) : (a ++ b) ++ c = a ++ (b ++ c).
Proof. induction a as [|x a IH]; simpl; [reflexivity|]. now rewrite IH. Qed.

Lemma append_nil_r (a : string) : a ++ "" = a.
Proof. induction a as [|x a IH]; simpl; [reflexivity|]. now rewrite IH. Qed.

Lemma length_append (a b : string) :
  String.length (a ++ b) = String.length a + String.length b.
Proof. induction a as [|x a IH]; simpl; [reflexivity|]. now rewrite IH. Qed.

Lemma prefix_app (p t : string) : prefix p (p ++ t) = true.
Proof.
  induction p as [|x p IH]; simpl; [destruct t; reflexivity|].
  destruct (ascii_dec x x) as [_|Hne]; [exact IH|]. now elim Hne.
Qed.

Lemma prefix_inv (p s : string) : prefix p s = true -> exists t, s = p ++ t.
Proof.
  revert s. induction p as [|x p IH]; intros s H.
  - exists s. reflexivity.
  - destruct s as [|y s]; simpl in H; [discriminate|].
    destruct (ascii_dec x y) as [->|_]; [|discriminate].
    destruct (IH s H) as [t ->]. exists t. reflexivity.
Qed.

Lemma prefix_app_r (p s t : string) : prefix p s = true -> prefix p (s ++ t) = true.
Proof.
  intros H. destruct (prefix_inv p s H) as [u ->].
  rewrite append_assoc. apply prefix_app.
Qed.

Lemma occurs_app (c : ascii) (a b : string) :
  occurs c (a ++ b) = (occurs c a || occurs c b)%bool.
Proof.
  induction a as [|x a IH]; simpl; [reflexivity|].
  rewrite IH. apply orb_assoc.
Qed.

(** If [a ++ c :: b] starts with [p] and [c] does not occur in [p], then [p]
    ends before [c]. *)
Lemma app_split_before (p a b t : string) (c : ascii) :
  occurs c p = false ->
  a ++ String c b = p ++ t ->
  exists a', a = p ++ a'.
Proof.
  revert a. induction p as [|x p IH]; intros a Hc Heq.
  - exists a. reflexivity.
  - simpl in Hc. apply orb_false_iff in Hc. destruct Hc as [Hx Hp].
    destruct a as [|y a]; simpl in Heq.
    + injection Heq as Hcx _. subst x. rewrite Ascii.eqb_refl in Hx. discriminate.
    + injection Heq as -> Heq. destruct (IH a Hp Heq) as [a' ->].
      exists a'. reflexivity.
Qed.

Lemma replace_literal_go_skip (pat rep a t : string) :
  Js.replace_literal_go pat rep (String.length a) (a ++ t) = Js.replace_literal_go pat rep 0 t.
Proof.
  induction a as [|x a IH]; simpl; [|exact IH].
  destruct t; reflexivity.
Qed.

Lemma replaceAll_match_cons (x : ascii) (p rep t : string) :
  Js.replace_literal (String x p) rep (String x p ++ t) =
  rep ++ Js.replace_literal (String x p) rep t.
Proof.
  unfold Js.replace_literal.
  change (String x p ++ t) with (String x (p ++ t)).
  cbn [Js.replace_literal_go].
  change (String x (p ++ t)) with (String x p ++ t).
  rewrite prefix_app. f_equal.
  replace (String.length (String x p) - 1) with (String.length p)
    by (simpl; lia).
  apply replace_literal_go_skip.
Qed.

Section Replace.

Variables pat rep : string.
Hypothesis pat_not_empty : pat <> "".

Local Abbreviation R := (Js.replace_literal pat rep).

Lemma replaceAll_nil : R "" = "".
Proof. reflexivity. Qed.

Lemma replaceAll_match (t : string) : R (pat ++ t) = rep ++ R t.
Proof.
  destruct pat as [|x p]; [now elim pat_not_empty|].
  apply replaceAll_match_cons.
Qed.

Lemma replaceAll_skip (c : ascii) (s : string) :
  prefix pat (String c s) = false -> R (String c s) = String c (R s).
Proof.
  intros H. unfold Js.replace_literal. cbn [Js.replace_literal_go]. rewrite H. reflexivity.
Qed.

(** The induction principle that follows the scan of [replaceAll]. *)
Lemma replaceAll_ind (Q : string -> string -> Prop) :
  Q "" "" ->
  (forall t r, Q t r -> Q (pat ++ t) (rep ++ r)) ->
  (forall c s r, prefix pat (String c s) = false -> Q s r ->
                 Q (String c s) (String c r)) ->
  forall s, Q s (R s).
Proof.
  intros Hnil Hmatch Hskip s.
  remember (String.length s) as n eqn:Hn.
  revert s Hn. induction n as [n IH] using lt_wf_ind. intros s Hn.
  destruct s as [|c s]; [exact Hnil|].
  destruct (prefix pat (String c s)) eqn:Hp.
  - destruct (prefix_inv _ _ Hp) as [t Ht]. rewrite Ht, replaceAll_match.
    apply Hmatch. apply (IH (String.length t)); [|reflexivity].
    subst n. rewrite Ht, length_append.
    destruct pat; [now elim pat_not_empty|]. simpl. lia.
  - rewrite (replaceAll_skip _ _ Hp). apply Hskip; [exact Hp|].
    apply (IH (String.length s)); [|reflexivity]. subst n. simpl. lia.
Qed.

(** A byte that does not occur in the pattern cuts the text in two parts
    that are rewritten independently. *)
Lemma replaceAll_cut (c : ascii) (a b : string) :
  occurs c pat = false ->
  R (a ++ String c b) = R a ++ String c (R b).
Proof.
  intros Hc. revert b.
  apply (replaceAll_ind
           (fun a r => forall b, R (a ++ String c b) = r ++ String c (R b))).
  - intros b. simpl. apply replaceAll_skip.
    destruct (prefix pat (String c b)) eqn:Hp; [|reflexivity].
    destruct (prefix_inv _ _ Hp) as [t Ht].
    destruct pat as [|x p]; [now elim pat_not_empty|].
    injection Ht as -> _. simpl in Hc. rewrite Ascii.eqb_refl in Hc. discriminate.
  - intros t r IH b. rewrite !append_assoc, replaceAll_match, IH. reflexivity.
  - intros x s r Hp IH b. simpl. rewrite replaceAll_skip, IH; [reflexivity|].
    destruct (prefix pat (String x (s ++ String c b))) eqn:Hp'; [|reflexivity].
    destruct (prefix_inv _ _ Hp') as [t Ht].
    destruct (app_split_before pat (String x s) b t c Hc Ht) as [a' Ha'].
    rewrite Ha', prefix_app in Hp. discriminate.
Qed.

(** A text that lacks some byte of the pattern is left as it is. *)
Lemma replaceAll_lacking (d : ascii) (s : string) :
  occurs d pat = true -> occurs d s = false -> R s = s.
Proof.
  intros Hd. induction s as [|c s IH]; intros Hs; [reflexivity|].
  simpl in Hs. apply orb_false_iff in Hs. destruct Hs as [Hc Hs'].
  rewrite replaceAll_skip, (IH Hs'); [reflexivity|].
  destruct (prefix pat (String c s)) eqn:Hp; [|reflexivity].
  destruct (prefix_inv _ _ Hp) as [t Ht].
  assert (H : occurs d (String c s) = true).
  { rewrite Ht, occurs_app, Hd. reflexivity. }
  simpl in H. rewrite Hc, Hs' in H. discriminate.
Qed.

(** Bytes excluded from the text and from the replacement stay excluded. *)
Lemma replaceAll_clear_of (stop : ascii -> bool) (s : string) :
  Url.clear_of stop rep = true ->
  Url.clear_of stop s = true ->
  Url.clear_of stop (R s) = true.
Proof.
  intros Hrep. unfold Url.clear_of in *.
  assert (Happ : forall a b,
             Url.forallb_string (fun c => negb (stop c)) (a ++ b) =
             (Url.forallb_string (fun c => negb (stop c)) a &&
              Url.forallb_string (fun c => negb (stop c)) b)%bool).
  { intros a b. induction a as [|x a IH]; simpl; [reflexivity|].
    rewrite IH. apply andb_assoc. }
  apply (replaceAll_ind
           (fun s r => Url.forallb_string (fun c => negb (stop c)) s = true ->
                       Url.forallb_string (fun c => negb (stop c)) r = true)).
  - auto.
  - intros t r IH H. rewrite Happ in *. apply andb_true_iff in H.
    destruct H as [_ Ht]. rewrite Hrep, (IH Ht). reflexivity.
  - intros c t r _ IH H. simpl in *. apply andb_true_iff in H.
    destruct H as [Hc Ht]. rewrite Hc, (IH Ht). reflexivity.
Qed.

End Replace.

(** ** Replacement patterns *)

Lemma substitute_literal (rep matched before after : string) :
  occurs "$" rep = false -> Js.substitute rep matched before after = rep.
Proof.
  induction rep as [|c rep IH]; [reflexivity|].
  simpl. intros H. apply orb_false_iff in H. destruct H as [Hc Hrep].
  rewrite Hc, (IH Hrep). reflexivity.
Qed.

Lemma replace_go_literal (pat rep : string) :
  occurs "$" rep = false ->
  forall s before skip,
    Js.replace_go pat rep before skip s = Js.replace_literal_go pat rep skip s.
Proof.
  intros Hrep. induction s as [|c s IH]; intros before skip; [reflexivity|].
  cbn [Js.replace_go Js.replace_literal_go].
  destruct skip as [|k]; [|apply IH].
  rewrite !IH, (substitute_literal _ _ _ _ Hrep). reflexivity.
Qed.

(** A replacement without a dollar sign is inserted as it is. *)
Lemma replaceAll_literal (pat rep s : string) :
  occurs "$" rep = false ->
  Js.replaceAll pat rep s = Js.replace_literal pat rep s.
Proof.
  intros Hrep. unfold Js.replaceAll, Js.replace_literal.
  now apply replace_go_literal.
Qed.

(* ================================================================== *)
(** * The form-urlencoded round trip *)
(* ================================================================== *)

Section UrlEncoded.

Import Url.

Lemma clear_of_occurs (d : ascii) (s : string) :
  clear_of (fun c => Ascii.eqb c d) s = negb (occurs d s).
Proof.
  unfold clear_of. induction s as [|x s IH]; simpl; [reflexivity|].
  rewrite IH, negb_orb. reflexivity.
Qed.

Lemma clear_of_app (stop : ascii -> bool) (a b : string) :
  clear_of stop (a ++ b) = (clear_of stop a && clear_of stop b)%bool.
Proof.
  unfold clear_of. induction a as [|x a IH]; simpl; [reflexivity|].
  rewrite IH. apply andb_assoc.
Qed.

(** [span] stops exactly where the first stop byte stands. *)
Lemma span_app (stop : ascii -> bool) (a b : string) :
  clear_of stop a = true ->
  match b with EmptyString => True | String c _ => stop c = true end ->
  span stop (a ++ b) = (a, b).
Proof.
  unfold clear_of. induction a as [|x a IH]; simpl; intros Ha Hb.
  - destruct b as [|c b]; [reflexivity|]. simpl. rewrite Hb. reflexivity.
  - apply andb_true_iff in Ha. destruct Ha as [Hx Ha].
    apply negb_true_iff in Hx. rewrite Hx, (IH Ha Hb). reflexivity.
Qed.


Lemma percent_decode_other (c : ascii) (rest : string) :
  Ascii.eqb c "%" = false ->
  percent_decode (String c rest) = String c (percent_decode rest).
Proof.
  intros Hc. destruct rest as [|a [|b rest]]; cbn [percent_decode];
    rewrite ?Hc; reflexivity.
Qed.

Lemma plus_to_space_app (a b : string) :
  plus_to_space (a ++ b) = plus_to_space a ++ plus_to_space b.
Proof. induction a as [|x a IH]; simpl; [reflexivity|]. now rewrite IH. Qed.

(** One encoded byte decodes to the byte, whatever follows it. *)
Lemma decode_encode_byte (c : ascii) (rest : string) :
  percent_decode (plus_to_space (encode_byte c) ++ rest) =
  String c (percent_decode rest).
Proof.
  destruct c as [[] [] [] [] [] [] [] []];
    first [ reflexivity | apply percent_decode_other; reflexivity ].
Qed.

Lemma decode_encode (s : string) : decode (encode s) = s.
Proof.
  unfold decode. induction s as [|c s IH]; [reflexivity|].
  cbn [encode]. rewrite plus_to_space_app, decode_encode_byte, IH. reflexivity.
Qed.

(** The encoder never emits a separator of the query syntax, nor a colon. *)
Lemma encode_byte_plain (c : ascii) :
  occurs "&" (encode_byte c) = false /\
  occurs "=" (encode_byte c) = false /\
  occurs "#" (encode_byte c) = false /\
  occurs ":" (encode_byte c) = false.
Proof.
  destruct c as [[] [] [] [] [] [] [] []]; repeat split; reflexivity.
Qed.

Lemma encode_plain (s : string) :
  occurs "&" (encode s) = false /\
  occurs "=" (encode s) = false /\
  occurs "#" (encode s) = false /\
  occurs ":" (encode s) = false.
Proof.
  induction s as [|c s [H1 [H2 [H3 H4]]]]; [repeat split; reflexivity|].
  destruct (encode_byte_plain c) as [B1 [B2 [B3 B4]]].
  cbn [encode]. rewrite !occurs_app, H1, H2, H3, H4, B1, B2, B3, B4.
  repeat split; reflexivity.
Qed.

Lemma parse_pair_encode (kv : string * string) :
  parse_pair (encode_pair kv) = kv.
Proof.
  destruct kv as [k v]. unfold parse_pair, encode_pair. cbn [fst snd].
  rewrite span_app.
  - cbn [append]. rewrite !decode_encode. reflexivity.
  - rewrite clear_of_occurs. destruct (encode_plain k) as [_ [-> _]]. reflexivity.
  - reflexivity.
Qed.

Lemma encode_pair_plain (kv : string * string) :
  occurs "&" (encode_pair kv) = false /\
  occurs "#" (encode_pair kv) = false /\
  occurs ":" (encode_pair kv) = false /\
  encode_pair kv <> "".
Proof.
  destruct kv as [k v]. unfold encode_pair. cbn [fst snd].
  destruct (encode_plain k) as [K1 [_ [K3 K4]]].
  destruct (encode_plain v) as [V1 [_ [V3 V4]]].
  rewrite !occurs_app, K1, K3, K4. cbn. rewrite V1, V3, V4.
  repeat split. destruct (encode k); discriminate.
Qed.

Lemma split_on_clear (sep : ascii) (s : string) :
  occurs sep s = false -> split_on sep s = [s].
Proof.
  induction s as [|x s IH]; simpl; [reflexivity|].
  intros H. apply orb_false_iff in H. destruct H as [Hx Hs].
  rewrite Hx, (IH Hs). reflexivity.
Qed.

Lemma split_on_app (sep : ascii) (a b : string) :
  occurs sep a = false ->
  split_on sep (a ++ String sep b) = a :: split_on sep b.
Proof.
  induction a as [|x a IH]; simpl; intros H.
  - rewrite Ascii.eqb_refl. reflexivity.
  - apply orb_false_iff in H. destruct H as [Hx Ha].
    rewrite Hx, (IH Ha). reflexivity.
Qed.

Lemma split_on_join (pieces : list string) :
  pieces <> [] ->
  Forall (fun p => occurs "&" p = false) pieces ->
  split_on "&" (join "&" pieces) = pieces.
Proof.
  induction pieces as [|p rest IH]; [congruence|].
  intros _ Hall. inversion Hall as [|? ? Hp Hrest]; subst.
  destruct rest as [|q rest].
  - simpl. now apply split_on_clear.
  - change (join "&" (p :: q :: rest)) with (p ++ String "&" (join "&" (q :: rest))).
    rewrite (split_on_app _ _ _ Hp), IH; [reflexivity|discriminate|exact Hrest].
Qed.

(** Parsing the serialisation of a parameter list gives the list back. *)
Lemma parse_serialize (l : Params) : parse_params (serialize_params l) = l.
Proof.
  unfold parse_params, serialize_params.
  destruct l as [|kv l]; [reflexivity|].
  rewrite split_on_join.
  - generalize (kv :: l) as m. induction m as [|x m IH]; [reflexivity|].
    cbn [map filter].
    destruct (encode_pair_plain x) as [_ [_ [_ Hne]]].
    apply String.eqb_neq in Hne. rewrite Hne. cbn [negb map].
    rewrite parse_pair_encode, IH. reflexivity.
  - discriminate.
  - apply Forall_forall. intros p Hin. apply in_map_iff in Hin.
    destruct Hin as [x [<- _]]. apply encode_pair_plain.
Qed.

Lemma join_plain (d : ascii) (pieces : list string) :
  Ascii.eqb "&" d = false ->
  Forall (fun p => occurs d p = false) pieces ->
  occurs d (join "&" pieces) = false.
Proof.
  intros Hd. induction pieces as [|p rest IH]; [reflexivity|].
  intros Hall. inversion Hall as [|? ? Hp Hrest]; subst.
  destruct rest as [|q rest]; [exact Hp|].
  change (join "&" (p :: q :: rest)) with (p ++ String "&" (join "&" (q :: rest))).
  rewrite occurs_app, Hp. cbn [occurs orb]. rewrite Hd. now apply IH.
Qed.

Lemma serialize_plain (l : Params) :
  occurs "#" (serialize_params l) = false /\
  occurs ":" (serialize_params l) = false.
Proof.
  unfold serialize_params.
  split; apply join_plain; try reflexivity;
    apply Forall_forall; intros p Hin; apply in_map_iff in Hin;
    destruct Hin as [x [<- _]]; apply encode_pair_plain.
Qed.

Lemma params_get_set_go (l : Params) (name value : string) :
  params_has l name = true ->
  params_get (params_set_go l name value false) name = Some value.
Proof.
  unfold params_has. induction l as [|[k v] l IH]; simpl; [discriminate|].
  destruct (k =? name) eqn:Hk; simpl.
  - rewrite Hk. reflexivity.
  - rewrite Hk. exact IH.
Qed.

Lemma params_get_app_absent (l : Params) (name value : string) :
  params_has l name = false ->
  params_get (l ++ [(name, value)])%list name = Some value.
Proof.
  unfold params_has. induction l as [|[k v] l IH]; simpl.
  - rewrite String.eqb_refl. reflexivity.
  - destruct (k =? name); simpl; [discriminate|exact IH].
Qed.

(** After [set(name, value)], [get(name)] is [value]. *)
Lemma params_get_set (l : Params) (name value : string) :
  params_get (params_set l name value) name = Some value.
Proof.
  unfold params_set. destruct (params_has l name) eqn:Hh.
  - now apply params_get_set_go.
  - now apply params_get_app_absent.
Qed.

End UrlEncoded.

(* ================================================================== *)
(** * What [Url.parse] guarantees *)
(* ================================================================== *)

Section UrlParse.

Import Url.


Lemma lower_ascii_idem (c : ascii) :
  Js.lower_ascii (Js.lower_ascii c) = Js.lower_ascii c.
Proof. destruct c as [[] [] [] [] [] [] [] []]; reflexivity. Qed.

Lemma lower_idem (s : string) : Js.lower (Js.lower s) = Js.lower s.
Proof.
  induction s as [|c s IH]; simpl; [reflexivity|].
  rewrite lower_ascii_idem, IH. reflexivity.
Qed.



Lemma scheme_char_not_colon (c : ascii) :
  scheme_char c = true -> Ascii.eqb c ":" = false.
Proof.
  destruct (Ascii.eqb_spec c ":") as [->|]; [discriminate|reflexivity].
Qed.

Lemma valid_scheme_no_colon (s : string) :
  valid_scheme s = true -> occurs ":" s = false.
Proof.
  destruct s as [|c s]; [discriminate|]. simpl. intros H.
  apply andb_true_iff in H. destruct H as [Hc Hs].
  assert (Hsc : scheme_char c = true).
  { unfold scheme_char. rewrite Hc. reflexivity. }
  rewrite (scheme_char_not_colon c Hsc). simpl.
  induction s as [|x s IH]; [reflexivity|]. simpl in *.
  apply andb_true_iff in Hs. destruct Hs as [Hx Hs].
  rewrite (scheme_char_not_colon x Hx). simpl. exact (IH Hs).
Qed.



End UrlParse.

(* ================================================================== *)
(** * Parsing what [href] prints *)
(* ================================================================== *)

Section UrlRoundTrip.

Import Url.

Lemma clear_of_weaken (stop1 stop2 : ascii -> bool) (s : string) :
  (forall c, stop2 c = true -> stop1 c = true) ->
  clear_of stop1 s = true -> clear_of stop2 s = true.
Proof.
  intros Hsub. unfold clear_of. induction s as [|c s IH]; simpl; [auto|].
  intros H. apply andb_true_iff in H. destruct H as [Hc Hs].
  rewrite (IH Hs), andb_true_r. apply negb_true_iff in Hc. apply negb_true_iff.
  destruct (stop2 c) eqn:H2; [|reflexivity].
  rewrite (Hsub c H2) in Hc. discriminate.
Qed.

Lemma path_stop_authority_stop (c : ascii) :
  path_stop c = true -> authority_stop c = true.
Proof.
  unfold path_stop, authority_stop. intros H.
  apply orb_true_iff in H. destruct H as [-> | ->];
    rewrite ?orb_true_r; reflexivity.
Qed.

Lemma starts_with_slash_inv (s : string) :
  starts_with_slash s = true -> exists rest, s = String "/" rest.
Proof.
  destruct s as [|c s]; [discriminate|].
  destruct c as [[] [] [] [] [] [] [] []]; try discriminate.
  intros _. exists s. reflexivity.
Qed.




(** The guarantees of a sound URL, one by one. *)
Lemma sound_inv (u : URL) :
  sound u = true ->
  valid_scheme (scheme u) = true /\
  Js.lower (scheme u) = scheme u /\
  clear_of authority_stop (userinfo u) = true /\
  clear_of authority_stop (host u) = true /\
  clear_of at_sign (host u) = true /\
  (has_authority u = true \/ host u = "" /\ userinfo u = "") /\
  (has_authority u = true ->
   pathname u = "" \/ exists p, pathname u = String "/" p) /\
  clear_of path_stop (pathname u) = true /\
  clear_of (fun c => Ascii.eqb c "#") (query_text u) = true.
Proof.
  unfold sound. rewrite !andb_true_iff, String.eqb_eq.
  intros [[[[[[[[H1 H2] H3] H4] H5] H6] H7] H8] H9].
  repeat split; auto.
  - apply orb_true_iff in H6. destruct H6 as [H6|H6]; [left; exact H6|right].
    apply andb_true_iff in H6. now rewrite !String.eqb_eq in H6.
  - intros Ha. rewrite Ha in H7. cbn [negb orb] in H7.
    apply orb_true_iff in H7. destruct H7 as [H7|H7].
    + left. now apply String.eqb_eq.
    + right. now apply starts_with_slash_inv.
Qed.

(** A URL with a host and the internal address as [url.host] has an
    authority. *)
Lemma sound_host_authority (u : URL) :
  sound u = true -> host u <> "" -> has_authority u = true.
Proof.
  intros Hs Hne. destruct (sound_inv u Hs) as [_ [_ [_ [_ [_ [[H|[H _]] _]]]]]].
  - exact H.
  - contradiction.
Qed.

(** What the serialiser prints for a URL with a host and a query. *)
Lemma href_print (u : URL) (q : string) :
  has_authority u = true ->
  query u = Some q ->
  href u = print (scheme u) (credentials u) (host u) (pathname u) q (fragment u).
Proof.
  intros Ha Hq. unfold href, print. rewrite Ha, Hq.
  cbn [append]. rewrite !append_assoc.
  destruct (fragment u); reflexivity.
Qed.

Lemma split_at_last_none (h : string) :
  clear_of at_sign h = true -> split_at_last h = None.
Proof.
  unfold clear_of. induction h as [|c h IH]; [reflexivity|].
  cbn [forallb_string split_at_last]. intros H.
  apply andb_true_iff in H. destruct H as [Hc Hh].
  rewrite (IH Hh). apply negb_true_iff in Hc. rewrite Hc. reflexivity.
Qed.

Lemma split_at_last_app (a h : string) :
  clear_of at_sign h = true ->
  split_at_last (a ++ String "@" h) = Some (a, h).
Proof.
  intros Hh. induction a as [|c a IH]; cbn [append split_at_last].
  - rewrite (split_at_last_none h Hh). reflexivity.
  - rewrite IH. reflexivity.
Qed.

Lemma split_credentials_spec (cred ui h : string) :
  (cred = "" /\ ui = "" \/ cred = ui ++ "@") ->
  clear_of at_sign h = true ->
  split_credentials (cred ++ h) = (ui, h).
Proof.
  unfold split_credentials. intros [[-> ->] | ->] Hh.
  - cbn [append]. rewrite (split_at_last_none h Hh). reflexivity.
  - rewrite append_assoc. cbn [append].
    rewrite (split_at_last_app ui h Hh). reflexivity.
Qed.

(** [read] finds the parts a URL was printed from. *)
Lemma read_print (sch cred ui h path q : string) (f : option string) :
  valid_scheme sch = true ->
  (cred = "" /\ ui = "" \/ cred = ui ++ "@") ->
  clear_of authority_stop ui = true ->
  clear_of authority_stop h = true ->
  clear_of at_sign h = true ->
  (path = "" \/ exists p, path = String "/" p) ->
  clear_of path_stop path = true ->
  clear_of (fun c => Ascii.eqb c "#") q = true ->
  read (print sch cred h path q f) =
    Some {| scheme := sch; host := h; pathname := path;
            query := Some q; fragment := f;
            userinfo := ui; has_authority := true;
            params := parse_params q |}.
Proof.
  intros Hs Hcred Hui Hh Hat Hpath Hc Hq.
  set (frag := match f with Some f => String "#" f | None => "" end).
  assert (Hauth : span authority_stop (cred ++ h ++ path ++ String "?" (q ++ frag)) =
                  (cred ++ h, path ++ String "?" (q ++ frag))).
  { rewrite <- append_assoc. apply span_app.
    - rewrite clear_of_app, Hh, andb_true_r.
      destruct Hcred as [[-> _] | ->]; [reflexivity|].
      rewrite clear_of_app, Hui. reflexivity.
    - destruct Hpath as [-> | [p ->]]; reflexivity. }
  assert (Hsp : span path_stop (path ++ String "?" (q ++ frag)) =
                (path, String "?" (q ++ frag))).
  { apply span_app; [exact Hc | reflexivity]. }
  assert (Hsq : span (fun c => Ascii.eqb c "#") (q ++ frag) = (q, frag)).
  { apply span_app; [exact Hq|]. unfold frag. destruct f; [reflexivity|exact I]. }
  unfold read, print. fold frag.
  rewrite span_app;
    [ | rewrite clear_of_occurs, (valid_scheme_no_colon sch Hs); reflexivity
      | reflexivity ].
  cbn [append]. rewrite Hs, Hauth, Hsp. cbn iota. rewrite Hsq.
  rewrite (split_credentials_spec cred ui h Hcred Hat).
  unfold frag. destruct f; reflexivity.
Qed.

End UrlRoundTrip.

(* ================================================================== *)
(** * Rewriting the debugger URL *)
(* ================================================================== *)

Section DebuggerUrl.

Import Url.

Variable ext : string.

Local Abbreviation R := (Js.replace_literal internal_address ext).

Lemma internal_address_not_empty : internal_address <> "".
Proof. discriminate. Qed.

(** No match of the internal address starts inside a scheme or its
    [://]. *)
Lemma skip_scheme (sch rest : string) :
  occurs ":" sch = false ->
  R (sch ++ String ":" (String "/" (String "/" rest))) =
  sch ++ String ":" (String "/" (String "/" (R rest))).
Proof.
  intros Hsch. induction sch as [|c sch IH].
  - cbn [append].
    rewrite !replaceAll_skip by reflexivity. reflexivity.
  - simpl in Hsch. apply orb_false_iff in Hsch. destruct Hsch as [Hc Hsch].
    cbn [append]. rewrite replaceAll_skip, (IH Hsch); [reflexivity|].
    destruct (prefix internal_address
                (String c (sch ++ String ":" (String "/" (String "/" rest)))))
      eqn:Hp; [|reflexivity].
    destruct (prefix_inv _ _ Hp) as [t Ht].
    apply (f_equal (span (fun x => Ascii.eqb x ":"))) in Ht.
    change (String c (sch ++ String ":" (String "/" (String "/" rest))))
      with (String c sch ++ String ":" (String "/" (String "/" rest))) in Ht.
    rewrite span_app in Ht.
    + cbn in Ht. discriminate Ht.
    + rewrite clear_of_occurs. simpl. rewrite Hc, Hsch. reflexivity.
    + reflexivity.
Qed.

Lemma rewritten_slash (p : string) : R (String "/" p) = String "/" (R p).
Proof. apply replaceAll_skip. reflexivity. Qed.

Lemma rewritten_internal : R internal_address = ext.
Proof.
  change (R (internal_address ++ "") = ext).
  rewrite (replaceAll_match _ _ internal_address_not_empty).
  apply append_nil_r.
Qed.

(** What follows the host is rewritten part by part: the separators [/],
    [?] and [#] are not bytes of the internal address, and a serialised
    query, which has no colon, holds no match. *)
Lemma rewritten_tail (a path ser : string) (f : option string) :
  (path = "" \/ exists p, path = String "/" p) ->
  occurs ":" ser = false ->
  R (a ++ path ++
     String "?" (ser ++ match f with Some f => String "#" f | None => "" end)) =
  R a ++ R path ++
  String "?" (ser ++ match option_map R f with
                     | Some f => String "#" f
                     | None => ""
                     end).
Proof.
  intros Hpath Hser.
  assert (Hq : R (ser ++ match f with Some f => String "#" f | None => "" end) =
               ser ++ match option_map R f with
                      | Some f => String "#" f
                      | None => ""
                      end).
  { destruct f as [f|]; cbn [option_map].
    - rewrite (replaceAll_cut _ _ internal_address_not_empty) by reflexivity.
      rewrite (replaceAll_lacking _ _ ":" ser) by (reflexivity || exact Hser).
      reflexivity.
    - rewrite !append_nil_r.
      apply (replaceAll_lacking _ _ ":" ser); [reflexivity | exact Hser]. }
  destruct Hpath as [-> | [p ->]].
  - cbn [append].
    rewrite (replaceAll_cut _ _ internal_address_not_empty) by reflexivity.
    rewrite Hq. reflexivity.
  - cbn [append].
    rewrite (replaceAll_cut _ _ internal_address_not_empty "/" a) by reflexivity.
    rewrite (replaceAll_cut _ _ internal_address_not_empty "?" p) by reflexivity.
    rewrite Hq, rewritten_slash. reflexivity.
Qed.

(** Rewriting the printed URL of the backend rewrites its credentials, its
    host, its path and its fragment, each in place; the scheme and the
    serialised query are untouched. *)
Lemma rewritten_href (u : URL) (sid : string) :
  sound u = true ->
  has_authority u = true ->
  R (href (searchParams_set u "sessionId" sid)) =
  print (scheme u)
        (if userinfo u =? "" then "" else R (userinfo u) ++ "@")
        (R (host u)) (R (pathname u))
        (serialize_params (params_set (searchParams u) "sessionId" sid))
        (option_map R (fragment u)).
Proof.
  intros Hsound Hauth.
  destruct (sound_inv u Hsound) as [Hs [_ [_ [_ [_ [_ [Hpath _]]]]]]].
  specialize (Hpath Hauth).
  rewrite (href_print (searchParams_set u "sessionId" sid)
             (serialize_params (params_set (searchParams u) "sessionId" sid)))
    by (reflexivity || exact Hauth).
  unfold print, credentials, searchParams_set.
  cbn [scheme host pathname query fragment userinfo has_authority].
  destruct (serialize_plain (params_set (searchParams u) "sessionId" sid))
    as [_ Hcolon].
  rewrite (skip_scheme (scheme u) _ (valid_scheme_no_colon _ Hs)).
  do 4 f_equal.
  destruct (userinfo u =? "").
  - cbn [append]. now apply rewritten_tail.
  - rewrite !append_assoc. cbn [append].
    rewrite (replaceAll_cut _ _ internal_address_not_empty "@") by reflexivity.
    f_equal. f_equal. now apply rewritten_tail.
Qed.

Hypothesis ext_stops : clear_of authority_stop ext = true.
Hypothesis ext_at : clear_of at_sign ext = true.

(** The rewritten URL, read by its components. *)
Lemma rewritten_reads (u : URL) (sid : string) :
  sound u = true ->
  has_authority u = true ->
  read (R (href (searchParams_set u "sessionId" sid))) =
    Some {| scheme := scheme u;
            host := R (host u);
            pathname := R (pathname u);
            query := Some (serialize_params
                             (params_set (searchParams u) "sessionId" sid));
            fragment := option_map R (fragment u);
            userinfo := R (userinfo u);
            has_authority := true;
            params := params_set (searchParams u) "sessionId" sid |}.
Proof.
  intros Hsound Hauth.
  destruct (sound_inv u Hsound) as [Hs [_ [Hui [Hh [Hat [_ [Hpath [Hc _]]]]]]]].
  specialize (Hpath Hauth).
  pose proof ext_stops as Hext. pose proof ext_at as Hext_at.
  assert (Hext_path : clear_of path_stop ext = true).
  { apply (clear_of_weaken authority_stop);
      [apply path_stop_authority_stop|exact Hext]. }
  rewrite (rewritten_href u sid Hsound Hauth).
  rewrite (read_print (scheme u) _ (R (userinfo u)) (R (host u)) (R (pathname u))
             (serialize_params (params_set (searchParams u) "sessionId" sid))
             (option_map R (fragment u))).
  - rewrite parse_serialize. reflexivity.
  - exact Hs.
  - destruct (userinfo u =? "") eqn:He.
    + left. apply String.eqb_eq in He. rewrite He. split; reflexivity.
    + right. reflexivity.
  - now apply (replaceAll_clear_of _ _ internal_address_not_empty).
  - now apply (replaceAll_clear_of _ _ internal_address_not_empty).
  - now apply (replaceAll_clear_of _ _ internal_address_not_empty).
  - destruct Hpath as [-> | [p ->]]; [left; reflexivity|].
    right. exists (R p). apply rewritten_slash.
  - now apply (replaceAll_clear_of _ _ internal_address_not_empty).
  - rewrite clear_of_occurs.
    destruct (serialize_plain (params_set (searchParams u) "sessionId" sid))
      as [-> _].
    reflexivity.
Qed.

End DebuggerUrl.

(* ================================================================== *)
(** * The discovery handler: the debugger URL of a successful answer *)
(* ================================================================== *)

Lemma lookup_update (fields : list (string * json)) (k : string) (v : json) :
  Json.lookup (Json.update fields k v) k = Some v.
Proof.
  induction fields as [|[k' v'] fields IH]; simpl.
  - rewrite String.eqb_refl. reflexivity.
  - destruct (k' =? k) eqn:Hk; simpl.
    + rewrite String.eqb_refl. reflexivity.
    + rewrite Hk. exact IH.
Qed.

(** With a replacement text without dollar sign, [rewriteHost] inserts it as
    it is. *)
Lemma rewriteHost_literal (this : BrowserRequestHandler) :
  occurs "$" (Url.host (url this)) = false ->
  forall text,
    rewriteHost this text =
    Js.replace_literal internal_address (Url.host (url this)) text.
Proof.
  intros Hv text. unfold rewriteHost.
  now apply replaceAll_literal.
Qed.

Section DiscoverySuccess.

Variable this : BrowserRequestHandler.
Variable uuid : string.
Variable resp : BackendResponse.
Variables data v : json.
Variable wsUrl : Url.URL.

Hypothesis Hanswer : backend_answers this uuid resp.
Hypothesis Hpayload : json_payload resp data.
Hypothesis Hfield : debugger_url_field data v.
Hypothesis Htruthy : Json.truthy (Some v) = true.
Hypothesis Hparse : new_URL this (Json.toString v) = Returned wsUrl.

(** What the handler answers when the payload carries a debugger URL that
    the URL constructor accepts. *)
Lemma discovery_answer :
  exists fields,
    data = JObj fields /\
    handleJsonVersionRequest this uuid =
      ([CallGet uuid; CallContainerFetch (upstream_url this) (request this)],
       Returned {| status := 200;
                   headers := [("content-type", "application/json")];
                   body := Json (JObj (Json.update fields "webSocketDebuggerUrl"
                                         (JStr (rewritten_debugger_url this uuid wsUrl)))) |}).
Proof.
  destruct Hanswer as [c [Hget Hfetch]]. destruct Hpayload as [Hct Hjson].
  unfold debugger_url_field in Hfield.
  destruct data as [| | | |items|fields]; try discriminate Hfield.
  exists fields. split; [reflexivity|].
  cbn [Json.get_prop] in Hfield. injection Hfield as Hlookup.
  unfold handleJsonVersionRequest, namespace_get. cbv zeta.
  rewrite Hget. cbn [bind emit lift app].
  unfold discovery_attempt, call_containerFetch.
  rewrite Hfetch. cbn [bind emit lift app].
  unfold process_discovery_response. cbv zeta.
  rewrite Hct. cbn [negb]. rewrite Hjson. cbn [bind emit lift app Json.get_prop].
  rewrite Hlookup, Htruthy. unfold Json.coerce. rewrite Hparse.
  reflexivity.
Qed.

Hypothesis Hsound : Url.sound wsUrl = true.
Hypothesis Hauthority : Url.has_authority wsUrl = true.
Hypothesis Hrequest : Url.sound (url this) = true.
Hypothesis Hdollar : occurs "$" (Url.host (url this)) = false.

(** The debugger URL of the answer, read by its components: the backend's
    URL with credentials, host, path and fragment rewritten and the minted
    session identity in its query. *)
Lemma debugger_url_reads :
  Url.read (rewritten_debugger_url this uuid wsUrl) =
    Some (rewritten_parsed this uuid wsUrl).
Proof.
  pose proof Hrequest as Hreq. apply sound_inv in Hreq.
  destruct Hreq as [_ [_ [_ [Hstops [Hat _]]]]].
  pose proof (rewriteHost_literal this Hdollar) as Hlit.
  unfold rewritten_debugger_url, rewritten_parsed.
  rewrite !Hlit.
  replace (option_map (rewriteHost this) (Url.fragment wsUrl))
    with (option_map (Js.replace_literal internal_address (Url.host (url this)))
                     (Url.fragment wsUrl))
    by (destruct (Url.fragment wsUrl); cbn [option_map]; rewrite ?Hlit; reflexivity).
  now apply rewritten_reads.
Qed.

Lemma debugger_url_session :
  Url.searchParams_get (rewritten_parsed this uuid wsUrl) "sessionId" = Some uuid.
Proof.
  unfold Url.searchParams_get, Url.searchParams, rewritten_parsed.
  cbn [Url.params]. apply params_get_set.
Qed.

Lemma debugger_url_internal :
  Url.host wsUrl = internal_address ->
  Url.host (rewritten_parsed this uuid wsUrl) = Url.host (url this).
Proof.
  intros Hint. unfold rewritten_parsed. cbn [Url.host].
  rewrite Hint, (rewriteHost_literal this Hdollar). apply rewritten_internal.
Qed.

End DiscoverySuccess.

(** C3, as amended: for a discovery request that succeeds, whose external
    host holds no dollar sign, and whose backend JSON payload has a
    [webSocketDebuggerUrl] that is truthy, that [new URL] accepts and whose
    host is the backend's internal address [127.0.0.1:3000], the
    [webSocketDebuggerUrl] of the returned 200 JSON names, as it is written,
    the requesting request's external host as its host and carries a
    [sessionId] query parameter equal to the session identity minted for that
    request.  The request URL and the backend's URL are URL objects of the
    platform ([Url.sound]), credentials included; the URL of the answer is
    read by its components, without normalisation ([Url.read]). *)
Theorem C3_debugger_url_of_internal_host :
  forall (this : BrowserRequestHandler) (uuid : string)
         (resp : BackendResponse) (data v : json) (wsUrl : Url.URL),
    Url.sound (url this) = true ->
    occurs "$" (Url.host (url this)) = false ->
    backend_answers this uuid resp ->
    json_payload resp data ->
    debugger_url_field data v ->
    Json.truthy (Some v) = true ->
    new_URL this (Json.toString v) = Returned wsUrl ->
    Url.sound wsUrl = true ->
    Url.host wsUrl = internal_address ->
    exists (out : Response) (s : string) (u : Url.URL),
      outcome (handleJsonVersionRequest this uuid) = Returned out /\
      answers_debugger_url out s /\
      Url.read s = Some u /\
      Url.host u = Url.host (url this) /\
      Url.searchParams_get u "sessionId" = Some uuid.
Proof.
  intros this uuid resp data v wsUrl Hreq Hdollar Hans Hpay Hfield Htruthy
    Hparse Hsound Hint.
  assert (Hauth : Url.has_authority wsUrl = true).
  { apply (sound_host_authority wsUrl Hsound). rewrite Hint. discriminate. }
  destruct (discovery_answer this uuid resp data v wsUrl Hans Hpay Hfield Htruthy Hparse)
    as [fields [_ Hrun]].
  eexists _, (rewritten_debugger_url this uuid wsUrl),
    (rewritten_parsed this uuid wsUrl).
  split; [rewrite Hrun; reflexivity|]. split.
  - split; [reflexivity|]. eexists. split; [reflexivity|]. apply lookup_update.
  - split; [exact (debugger_url_reads this uuid wsUrl Hsound Hauth Hreq Hdollar)|].
    split; [exact (debugger_url_internal this uuid wsUrl Hdollar Hint)|].
    apply debugger_url_session.
Qed.

Lemma C3_debugger_url_of_internal_host_witness :
  exists (out : Response) (s : string) (u : Url.URL),
    outcome (handleJsonVersionRequest Sample.discovery_credentials Sample.uuid) =
      Returned out /\
    answers_debugger_url out s /\
    Url.read s = Some u /\
    Url.host u = "proxy.example" /\
    Url.searchParams_get u "sessionId" = Some Sample.uuid.
Proof.
  apply (C3_debugger_url_of_internal_host
           Sample.discovery_credentials Sample.uuid
           Sample.json_credentials
           (JObj [("webSocketDebuggerUrl", JStr "ws://u@127.0.0.1:3000/x")])
           (JStr "ws://u@127.0.0.1:3000/x")
           Sample.url_credentials).
  - reflexivity.
  - reflexivity.
  - eexists. split; reflexivity.
  - split; reflexivity.
  - reflexivity.
  - reflexivity.
  - reflexivity.
  - reflexivity.
  - reflexivity.
Defined.

(** C3, as stated, fails: when the backend's payload names a host other than
    the internal address, here [localhost:9222], the discovery request
    succeeds and the returned debugger URL still has that host, not the
    requesting request's external host. *)
Lemma C3_other_host_is_kept :
  ~ (forall (this : BrowserRequestHandler) (uuid : string)
            (resp : BackendResponse) (data v : json) (out : Response),
        Url.sound (url this) = true ->
        occurs "$" (Url.host (url this)) = false ->
        backend_answers this uuid resp ->
        json_payload resp data ->
        debugger_url_field data v ->
        outcome (handleJsonVersionRequest this uuid) = Returned out ->
        status out = 200%Z ->
        exists (s : string) (u : Url.URL),
          answers_debugger_url out s /\
          Url.read s = Some u /\
          Url.host u = Url.host (url this) /\
          Url.searchParams_get u "sessionId" = Some uuid).
Proof.
  intros H.
  destruct (H (Sample.discovery_against (Returned Sample.json_other_host)) Sample.uuid
              Sample.json_other_host
              (JObj [("Browser", JStr "HeadlessChrome/120.0");
                     ("webSocketDebuggerUrl",
                      JStr "ws://localhost:9222/devtools/browser/b1")])
              (JStr "ws://localhost:9222/devtools/browser/b1")
              {| status := 200;
                 headers := [("content-type", "application/json")];
                 body := Json (JObj [("Browser", JStr "HeadlessChrome/120.0");
                                     ("webSocketDebuggerUrl",
                                      JStr "ws://localhost:9222/devtools/browser/b1?sessionId=3f2b8c1e-5d4a-4e6f-9a7b-0c1d2e3f4a5b")]) |})
    as [s [u [[_ [fields [Hbody Hlookup]]] [Hparse [Hhost _]]]]].
  - reflexivity.
  - reflexivity.
  - eexists. split; reflexivity.
  - split; reflexivity.
  - reflexivity.
  - reflexivity.
  - reflexivity.
  - cbn [body] in Hbody. injection Hbody as <-.
    cbn in Hlookup. injection Hlookup as <-.
    vm_compute in Hparse. injection Hparse as <-.
    discriminate Hhost.
Qed.

(* ================================================================== *)
(** * Scenarios *)
(* ================================================================== *)

(** Development mode, [GET /json/version] without session inputs: a 200
    whose debugger URL carries the fresh session identity. *)
Example scenario_dev_discovery :
  outcome (handle (Sample.discovery_against (Returned Sample.json_ok)) Sample.uuid) =
    Returned {| status := 200;
                headers := [("content-type", "application/json")];
                body := Json (JObj [("Browser", JStr "HeadlessChrome/120.0");
                                    ("webSocketDebuggerUrl",
                                     JStr "ws://proxy.example/devtools/browser/b1?sessionId=3f2b8c1e-5d4a-4e6f-9a7b-0c1d2e3f4a5b")]) |}.
Proof. reflexivity. Qed.

(** A request with [X-Session-ID] and [Upgrade: websocket] is forwarded as
    a raw upgrade to the backend of that session, with the session header
    set. *)
Example scenario_websocket_upgrade :
  events (handle (Sample.handler (Sample.env_prod (Some "secret") (Returned Sample.json_ok))
                    "GET" "https://proxy.example/devtools/browser/b1"
                    [("Upgrade", "websocket"); ("X-Session-ID", "s-1")])
                 Sample.uuid) =
    [CallGet "s-1";
     CallFetch (Sample.req "GET" "https://proxy.example/devtools/browser/b1"
                  [("Upgrade", "websocket"); ("X-Session-ID", "s-1")])].
Proof. reflexivity. Qed.

(** Production, key ["secret"], discovery with [?apiKey=wrong]: 401 with
    [error] equal to [Authentication required]. *)
Example scenario_wrong_key :
  outcome (handle Sample.discovery_wrong_key Sample.uuid) =
    Returned (structured_401
                {| isAuthenticated := false;
                   message := "Invalid or missing API key. Use ?apiKey=YOUR_KEY" |}).
Proof. reflexivity. Qed.

(** A debugger URL with credentials keeps them; the host after them is
    replaced. *)
Example scenario_credentials :
  outcome (handle Sample.discovery_credentials Sample.uuid) =
    Returned {| status := 200;
                headers := [("content-type", "application/json")];
                body := Json (JObj [("webSocketDebuggerUrl",
                                     JStr "ws://u@proxy.example/x?sessionId=3f2b8c1e-5d4a-4e6f-9a7b-0c1d2e3f4a5b")]) |}.
Proof. reflexivity. Qed.

(** The external host is used as a replacement pattern: under the host
    [a$&b.example] the [$&] stands for the matched text, and the debugger URL
    of the answer names the host [a127.0.0.1:3000b.example]. *)
Example scenario_dollar_host :
  outcome (handle Sample.discovery_dollar_host Sample.uuid) =
    Returned {| status := 200;
                headers := [("content-type", "application/json")];
                body := Json (JObj [("Browser", JStr "HeadlessChrome/120.0");
                                    ("webSocketDebuggerUrl",
                                     JStr "ws://a127.0.0.1:3000b.example/devtools/browser/b1?sessionId=3f2b8c1e-5d4a-4e6f-9a7b-0c1d2e3f4a5b")]) |}.
Proof. reflexivity. Qed.

(** An upgrade whose session identity ends in a space is forwarded with the
    identity trimmed in its header. *)
Example scenario_upgrade_padded :
  events (handle Sample.upgrade_padded Sample.uuid) =
    [CallGet "abc ";
     CallFetch (Sample.req "GET"
                  "https://proxy.example/devtools/browser/b1?sessionId=abc+"
                  [("Upgrade", "websocket"); ("x-session-id", "abc")])].
Proof. reflexivity. Qed.

(** An upgrade whose session identity holds a line feed is not forwarded:
    setting the header throws. *)
Example scenario_upgrade_two_lines :
  exists sid,
    handle Sample.upgrade_two_lines Sample.uuid =
      ([CallGet sid], Thrown "TypeError: Invalid header value.").
Proof. eexists. reflexivity. Qed.

(** A backend answer 304 without body is forwarded as it is, without
    [content-length]. *)
Example scenario_not_modified :
  outcome (handle (Sample.proxied (Returned (Sample.not_modified "etag-1")))
                  Sample.uuid) =
    Returned {| status := 304; headers := [("etag", "etag-1")]; body := NoBody |}.
Proof. reflexivity. Qed.

(** A proxied body that names the internal address comes back with the
    external host in its place and is otherwise unchanged. *)
Example scenario_proxy_rewrite :
  outcome (handle (Sample.proxied
                     (Returned (Sample.plain 200
                        "page 1 at ws://127.0.0.1:3000/devtools/page/1 (127.0.0.1:3000)")))
                  Sample.uuid) =
    Returned {| status := 200;
                headers := [("content-type", "text/plain")];
                body := Text "page 1 at ws://proxy.example/devtools/page/1 (proxy.example)" |}.
Proof. reflexivity. Qed.

(* ================================================================== *)
(** * The WebSocket bridge *)
(* ================================================================== *)

Section HeaderSet.

Variables name value : string.

Local Abbreviation set_go :=
  (fix go (l : Headers) (done : bool) : Headers :=
     match l with
     | [] => []
     | (k, v) :: rest =>
         if name_eqb k name
         then if done then go rest true else (k, value) :: go rest true
         else (k, v) :: go rest done
     end).

Lemma name_eqb_sym (a b : string) : name_eqb a b = name_eqb b a.
Proof. unfold name_eqb. apply String.eqb_sym. Qed.

Lemma name_eqb_lower (a : string) : name_eqb (Js.lower a) a = true.
Proof. unfold name_eqb. rewrite lower_idem. apply String.eqb_refl. Qed.

Lemma set_go_same (l : Headers) :
  headers_values (set_go l true) name = [] /\
  headers_values (set_go l false) name =
    if headers_has l name then [value] else [].
Proof.
  unfold headers_values, headers_has.
  induction l as [|[k v] l [IHt IHf]]; [split; reflexivity|].
  cbn [existsb fst]. destruct (name_eqb k name) eqn:Hk.
  - split; [exact IHt|]. cbn [filter fst map snd orb]. rewrite Hk.
    cbn [map snd]. rewrite IHt. reflexivity.
  - cbn [filter fst orb]. rewrite Hk. split; assumption.
Qed.

Lemma set_go_other (m : string) (l : Headers) (done : bool) :
  name_eqb m name = false ->
  headers_values (set_go l done) m = headers_values l m.
Proof.
  intros Hm. unfold headers_values. revert done.
  induction l as [|[k v] l IH]; intros done; [reflexivity|].
  destruct (name_eqb k name) eqn:Hk.
  - assert (Hkm : name_eqb k m = false).
    { apply (name_eqb_false_trans k name m); [|exact Hk].
      rewrite name_eqb_sym. exact Hm. }
    destruct done; cbn [filter fst]; rewrite Hkm; apply IH.
  - cbn [filter fst]. destruct (name_eqb k m); cbn [map snd]; rewrite IH;
      reflexivity.
Qed.

(** After a valid [value] has been set under [name], [get(name)] is [value]
    alone, whatever the list held under that name. *)
Lemma headers_get_put_same (h : Headers) :
  headers_get (headers_put h name value) name = Some value.
Proof.
  unfold headers_get, headers_put.
  destruct (headers_has h name) eqn:Hh.
  - destruct (set_go_same h) as [_ ->]. rewrite Hh. reflexivity.
  - rewrite headers_values_app.
    apply headers_has_values in Hh. rewrite Hh.
    unfold headers_values. cbn [filter fst]. rewrite name_eqb_lower. reflexivity.
Qed.

(** Setting a value under [name] leaves the headers of every other name
    alone. *)
Lemma headers_get_put_other (h : Headers) (m : string) :
  name_eqb m name = false ->
  headers_get (headers_put h name value) m = headers_get h m.
Proof.
  intros Hm. unfold headers_get, headers_put.
  destruct (headers_has h name).
  - rewrite (set_go_other m h false Hm). reflexivity.
  - rewrite headers_values_app.
    assert (Hnew : headers_values [(Js.lower name, value)] m = []).
    { unfold headers_values. cbn [filter fst].
      replace (name_eqb (Js.lower name) m) with false; [reflexivity|].
      symmetry. apply (name_eqb_false_trans (Js.lower name) name m).
      - rewrite name_eqb_sym. exact Hm.
      - apply name_eqb_lower. }
    rewrite Hnew, app_nil_r. reflexivity.
Qed.

End HeaderSet.

(** X1: on the WebSocket route, for a session identity of ASCII text.  The
    header list normalises the identity as [Headers.set] does (leading and
    trailing HTTP whitespace goes; NUL, CR or LF inside is a [TypeError]).
    When that succeeds the backend of the session receives one raw forward of
    a request whose [X-Session-ID] header is the normalised identity alone
    (also when the client sent the identity in the query, or sent the header
    several times); method, URL, body and every other header are those of the
    inbound request, and the backend's answer is returned as it is.  When the
    identity holds a forbidden byte, [handle] throws after the handle lookup
    and nothing is forwarded. *)
Theorem X1_upgrade_carries_session :
  forall (this : BrowserRequestHandler) (uuid sid : string),
    route this = ToWebsocket sid ->
    ascii_text sid = true ->
    (forall container v,
        get_by_name (BROWSER_CONTAINER (env this)) sid = Returned container ->
        header_value sid = Returned v ->
        handle this uuid =
          ([CallGet sid; CallFetch (upgrade_request this v)],
           fetch container (upgrade_request this v)) /\
        headers_get (req_headers (upgrade_request this v)) "X-Session-ID" = Some v /\
        (forall m, name_eqb m "X-Session-ID" = false ->
                   headers_get (req_headers (upgrade_request this v)) m =
                   headers_get (req_headers (request this)) m) /\
        req_method (upgrade_request this v) = req_method (request this) /\
        req_url (upgrade_request this v) = req_url (request this) /\
        req_body (upgrade_request this v) = req_body (request this)) /\
    (forall container e,
        get_by_name (BROWSER_CONTAINER (env this)) sid = Returned container ->
        header_value sid = Thrown e ->
        handle this uuid = ([CallGet sid], Thrown e)).
Proof.
  intros this uuid sid Hr _. split.
  - intros c v Hget Hv. repeat split.
    + rewrite handle_dispatch, Hr. cbn [dispatch].
      unfold getContainer, namespace_get, handleWebsocketUpgrade, headers_set.
      cbv zeta. rewrite Hget. cbn [bind emit lift app].
      rewrite Hv. cbn [bind emit lift app].
      fold (upgrade_request this v).
      destruct (fetch c (upgrade_request this v)); reflexivity.
    + apply headers_get_put_same.
    + intros m Hm. apply headers_get_put_other. exact Hm.
  - intros c e Hget Hv.
    rewrite handle_dispatch, Hr. cbn [dispatch].
    unfold getContainer, namespace_get, handleWebsocketUpgrade, headers_set.
    cbv zeta. rewrite Hget. cbn [bind emit lift app].
    rewrite Hv. reflexivity.
Qed.

Lemma X1_upgrade_carries_session_witness :
  handle Sample.upgrade_padded Sample.uuid =
    ([CallGet "abc "; CallFetch (upgrade_request Sample.upgrade_padded "abc")],
     fetch (Sample.stub (Returned Sample.json_ok))
           (upgrade_request Sample.upgrade_padded "abc")) /\
  headers_get (req_headers (upgrade_request Sample.upgrade_padded "abc"))
              "X-Session-ID" = Some "abc".
Proof.
  pose proof (proj1 (X1_upgrade_carries_session
                       Sample.upgrade_padded Sample.uuid "abc " eq_refl eq_refl)
                    (Sample.stub (Returned Sample.json_ok)) "abc"
                    eq_refl eq_refl) as H.
  exact (conj (proj1 H) (proj1 (proj2 H))).
Defined.

(* ================================================================== *)
(** * Requests that carry a session identity *)
(* ================================================================== *)

Section SessionBearing.

Variable this : BrowserRequestHandler.
Variable sid : string.

Hypothesis Hsid : extractSessionId this = Some sid.
Hypothesis Hne : sid <> "".

Lemma session_truthy : Js.truthy (extractSessionId this) = true.
Proof. rewrite Hsid. now apply truthy_Some. Qed.

Lemma session_route :
  route this =
    if Js.strict_eq (headers_get (req_headers (request this)) "Upgrade") "websocket"
    then ToWebsocket sid else ToProxy sid.
Proof.
  unfold route. rewrite session_truthy. cbn [negb andb]. rewrite Hsid.
  reflexivity.
Qed.

(** What [handle] runs for such a request. *)
Lemma session_run (uuid : string) :
  handle this uuid =
    (container <- namespace_get this sid ;;
     if Js.strict_eq (headers_get (req_headers (request this)) "Upgrade") "websocket"
     then handleWebsocketUpgrade this container sid
     else containerFetchWithRewrite this container).
Proof.
  unfold handle, handle_with. cbv zeta. rewrite session_truthy.
  cbn [negb andb]. rewrite Hsid. reflexivity.
Qed.

Lemma session_first_event (uuid : string) :
  exists rest, events (handle this uuid) = CallGet sid :: rest.
Proof.
  rewrite session_run. unfold namespace_get.
  destruct (get_by_name (BROWSER_CONTAINER (env this)) sid) as [c|e];
    cbn [bind emit lift app].
  - destruct (if Js.strict_eq _ "websocket" then _ else _) as [t o].
    exists t. reflexivity.
  - exists []. reflexivity.
Qed.

Lemma session_one_get (uuid : string) :
  count_events is_get (events (handle this uuid)) = 1.
Proof.
  rewrite session_run. unfold namespace_get, count_events.
  destruct (get_by_name (BROWSER_CONTAINER (env this)) sid) as [c|e];
    cbn [bind emit lift app]; [|reflexivity].
  destruct (Js.strict_eq _ "websocket").
  - unfold handleWebsocketUpgrade. cbv zeta.
    destruct (headers_set _ _ _); cbn [bind emit lift app]; [|reflexivity].
    destruct (fetch c _); reflexivity.
  - unfold containerFetchWithRewrite, call_containerFetch. cbv zeta.
    destruct (containerFetch c _ _) as [resp|e]; cbn [bind emit lift app];
      [|reflexivity].
    destruct (b_text resp); cbn [bind emit lift app]; [|reflexivity].
    destruct (new_Response _ _ _); reflexivity.
Qed.

End SessionBearing.

(** X2: a request that carries a session identity is served without any
    authentication check: whatever [API_KEY] and [DEV] are set to, [handle]
    does the same, on the discovery path as on every other. *)
Theorem X2_session_bypasses_authentication :
  forall (this : BrowserRequestHandler) (uuid : string) (key dev : option string),
    Js.truthy (extractSessionId this) = true ->
    handle (with_auth this key dev) uuid = handle this uuid.
Proof.
  intros this uuid key dev Ht. unfold handle, handle_with. cbv zeta.
  change (extractSessionId (with_auth this key dev)) with (extractSessionId this).
  rewrite Ht. reflexivity.
Qed.

Lemma X2_session_bypasses_authentication_witness :
  handle (with_auth (Sample.version_with_session (Returned Sample.json_ok))
                    None None) Sample.uuid =
  handle (Sample.version_with_session (Returned Sample.json_ok)) Sample.uuid.
Proof.
  apply (X2_session_bypasses_authentication
           (Sample.version_with_session (Returned Sample.json_ok)) Sample.uuid).
  reflexivity.
Defined.

(** X3: a request that carries the session identity [sid] is routed by its
    [Upgrade] header alone (raw forward when the header is exactly
    [websocket], buffered proxy otherwise), asks the namespace once and for
    the name [sid], before anything else, and is served the same whatever
    identity [randomUUID] would mint. *)
Theorem X3_session_affinity :
  forall (this : BrowserRequestHandler) (uuid sid : string),
    extractSessionId this = Some sid ->
    sid <> "" ->
    (route this =
       if Js.strict_eq (headers_get (req_headers (request this)) "Upgrade") "websocket"
       then ToWebsocket sid else ToProxy sid) /\
    (exists rest, events (handle this uuid) = CallGet sid :: rest) /\
    count_events is_get (events (handle this uuid)) = 1 /\
    (forall uuid', handle this uuid' = handle this uuid).
Proof.
  intros this uuid sid Hsid Hne. repeat split.
  - now apply session_route.
  - now apply session_first_event.
  - now apply (session_one_get this sid).
  - intros uuid'. rewrite !(session_run this sid Hsid Hne). reflexivity.
Qed.

Lemma X3_session_affinity_witness :
  route (Sample.version_with_session (Returned Sample.json_ok)) = ToProxy "s-3".
Proof.
  apply (X3_session_affinity
           (Sample.version_with_session (Returned Sample.json_ok)) Sample.uuid "s-3").
  - reflexivity.
  - discriminate.
Defined.

(* ================================================================== *)
(** * The host rewriter *)
(* ================================================================== *)

Lemma replace_go_absent (pat rep : string) (s : string) :
  Js.includes s pat = false ->
  forall before, Js.replace_go pat rep before 0 s = s.
Proof.
  induction s as [|c s IH]; intros Hinc before; [reflexivity|].
  cbn [Js.includes] in Hinc. apply orb_false_iff in Hinc.
  destruct Hinc as [Hp Hrest].
  cbn [Js.replace_go]. rewrite Hp, (IH Hrest). reflexivity.
Qed.

(** X4: [rewriteHost] leaves a text in which the internal address
    [127.0.0.1:3000] does not occur exactly as it is, whatever the external
    host. *)
Theorem X4_rewriteHost_keeps_unrelated_text :
  forall (this : BrowserRequestHandler) (text : string),
    Js.includes text internal_address = false ->
    rewriteHost this text = text.
Proof.
  intros this text H. unfold rewriteHost, Js.replaceAll.
  now apply replace_go_absent.
Qed.

Lemma X4_rewriteHost_keeps_unrelated_text_witness :
  rewriteHost Sample.discovery_dev "ws://127.0.0.1:3001/devtools (127.0.0.1)" =
  "ws://127.0.0.1:3001/devtools (127.0.0.1)".
Proof.
  apply (X4_rewriteHost_keeps_unrelated_text Sample.discovery_dev).
  reflexivity.
Defined.

(** X5: when the external host has no dollar sign (the byte that starts a
    replacement pattern), [rewriteHost] puts the host in place of an
    occurrence at the start of the text and goes on with the rest, and it
    works on the two sides of any byte that does not occur in the internal
    address independently: quotes, braces, slashes and spaces stay where
    they are. *)
Theorem X5_rewriteHost_is_local :
  forall (this : BrowserRequestHandler),
    occurs "$" (Url.host (url this)) = false ->
    (forall rest,
        rewriteHost this (internal_address ++ rest) =
        Url.host (url this) ++ rewriteHost this rest) /\
    (forall (c : ascii) (a b : string),
        occurs c internal_address = false ->
        rewriteHost this (a ++ String c b) =
        rewriteHost this a ++ String c (rewriteHost this b)).
Proof.
  intros this Hd. unfold rewriteHost. split.
  - intros rest. rewrite !(replaceAll_literal _ _ _ Hd).
    apply (replaceAll_match _ _ internal_address_not_empty).
  - intros c a b Hc. rewrite !(replaceAll_literal _ _ _ Hd).
    now apply (replaceAll_cut _ _ internal_address_not_empty).
Qed.

Lemma X5_rewriteHost_is_local_witness :
  rewriteHost Sample.discovery_dev ("127.0.0.1:3000" ++ "/json") =
  "proxy.example" ++ rewriteHost Sample.discovery_dev "/json".
Proof.
  apply (proj1 (X5_rewriteHost_is_local Sample.discovery_dev eq_refl)).
Defined.

(* ================================================================== *)
(** * The internal URL *)
(* ================================================================== *)





(* ================================================================== *)
(** * The discovery handler: every answer *)
(* ================================================================== *)

Section DiscoveryAnswers.

Variable this : BrowserRequestHandler.
Variable uuid : string.

(** Every response the [try] block produces is a 200, a 429 or a 500. *)
Lemma process_statuses (resp : BackendResponse) (out : Response) :
  outcome (process_discovery_response this uuid resp) = Returned out ->
  discovery_status (status out).
Proof.
  unfold process_discovery_response, discovery_status. cbv zeta.
  destruct (negb (is_json_content_type _)).
  - destruct (b_text resp) as [text|e]; cbn [bind emit lift app outcome snd];
      [|discriminate].
    destruct (_ || _)%bool; cbn; intros H; injection H as <-; cbn; auto.
  - destruct (b_json resp) as [data|e]; cbn [bind emit lift app outcome snd];
      [|discriminate].
    destruct (Json.get_prop data "webSocketDebuggerUrl") as [field|e];
      cbn [bind emit lift app outcome snd]; [|discriminate].
    destruct (Json.truthy field).
    + destruct (new_URL this (Json.coerce field)) as [u|e];
        cbn [bind emit lift app outcome snd]; [|discriminate].
      destruct (Json.set_prop data _ _) as [d|e];
        cbn [bind emit lift app outcome snd]; [|discriminate].
      cbn. intros H. injection H as <-. cbn. auto.
    + cbn. intros H. injection H as <-. cbn. auto.
Qed.

Lemma discovery_always_answers (container : DurableObjectStub) :
  get_by_name (BROWSER_CONTAINER (env this)) uuid = Returned container ->
  exists out,
    outcome (handleJsonVersionRequest this uuid) = Returned out /\
    discovery_status (status out).
Proof.
  intros Hget. unfold handleJsonVersionRequest, namespace_get. cbv zeta.
  rewrite Hget. cbn [bind emit lift app].
  unfold discovery_attempt, call_containerFetch.
  destruct (containerFetch container (upstream_url this) (request this))
    as [resp|e]; cbn [bind emit lift app].
  - pose proof (process_statuses resp) as Hst.
    destruct (process_discovery_response this uuid resp) as [t [out|e]].
    + exists out. split; [reflexivity|]. apply Hst. reflexivity.
    + eexists. split; [reflexivity|]. right. right. reflexivity.
  - eexists. split; [reflexivity|]. right. right. reflexivity.
Qed.

End DiscoveryAnswers.

(** X7: once the backend handle of the minted identity is obtained, the
    discovery handler always returns a response and never throws, and the
    status of that response is 200, 429 or 500, whatever the backend does
    (its own status code is never passed on). *)
Theorem X7_discovery_always_answers :
  forall (this : BrowserRequestHandler) (uuid : string) (container : DurableObjectStub),
    get_by_name (BROWSER_CONTAINER (env this)) uuid = Returned container ->
    exists out,
      outcome (handleJsonVersionRequest this uuid) = Returned out /\
      discovery_status (status out).
Proof.
  intros this uuid container. apply discovery_always_answers.
Qed.

Lemma X7_discovery_always_answers_witness :
  exists out,
    outcome (handleJsonVersionRequest
               (Sample.discovery_against (Returned (Sample.plain 404 "Not Found")))
               Sample.uuid) = Returned out /\
    discovery_status (status out).
Proof.
  apply (X7_discovery_always_answers
           (Sample.discovery_against (Returned (Sample.plain 404 "Not Found")))
           Sample.uuid
           (Sample.stub (Returned (Sample.plain 404 "Not Found")))).
  reflexivity.
Defined.

(** X8: for a backend answer that is not JSON and whose body can be read,
    the discovery handler answers 429 exactly when the body contains
    [no Container instance available] or [max concurrent instance count], and
    500 otherwise; the status code the backend sent plays no part. *)
Theorem X8_capacity_phrases_decide :
  forall (this : BrowserRequestHandler) (uuid : string)
         (resp : BackendResponse) (text : string),
    backend_answers this uuid resp ->
    not_json resp ->
    b_text resp = Returned text ->
    outcome (handleJsonVersionRequest this uuid) =
      Returned (if capacity_exhausted text then too_many_429 text
                else initialization_failed text) /\
    (Js.includes text "no Container instance available" = true ->
     outcome (handleJsonVersionRequest this uuid) = Returned (too_many_429 text)).
Proof.
  intros this uuid resp text Ha Hn Ht.
  rewrite (non_json_answer this uuid resp text Ha Hn Ht).
  unfold capacity_exhausted, too_many_429, initialization_failed. split.
  - destruct (_ || _)%bool; reflexivity.
  - intros ->. reflexivity.
Qed.

Lemma X8_capacity_phrases_decide_witness :
  outcome (handleJsonVersionRequest
             (Sample.discovery_against
                (Returned (Sample.plain 503 "There is no Container instance available")))
             Sample.uuid) =
    Returned (too_many_429 "There is no Container instance available").
Proof.
  apply (proj2 (X8_capacity_phrases_decide
                  (Sample.discovery_against
                     (Returned (Sample.plain 503 "There is no Container instance available")))
                  Sample.uuid
                  (Sample.plain 503 "There is no Container instance available")
                  "There is no Container instance available"
                  (ex_intro _ _ (conj eq_refl eq_refl)) eq_refl eq_refl)).
  reflexivity.
Defined.

(** X9: a JSON backend answer whose payload is not [null] and has no
    [webSocketDebuggerUrl], or a falsy one (empty string, [0], [false],
    [null]), is answered with status 200, the content type
    [application/json] and, as body, the payload rendered again by
    [JSON.stringify] (body [Json data]; the rendering need not be the text
    the backend sent: a number beyond the double range comes back as
    [null]).  Arrays, numbers, strings and booleans are such payloads, having
    no such property; the payload [null] is not, reading its property throws
    (X10).  The status and the headers of the backend's answer are not passed
    on. *)
Theorem X9_payload_without_debugger_url :
  forall (this : BrowserRequestHandler) (uuid : string)
         (resp : BackendResponse) (data : json) (field : option json),
    backend_answers this uuid resp ->
    json_payload resp data ->
    Json.get_prop data "webSocketDebuggerUrl" = Returned field ->
    Json.truthy field = false ->
    handleJsonVersionRequest this uuid =
      ([CallGet uuid; CallContainerFetch (upstream_url this) (request this)],
       Returned (json_200 data)).
Proof.
  intros this uuid resp data field [c [Hget Hfetch]] [Hct Hjson] Hfield Hfalsy.
  unfold handleJsonVersionRequest, namespace_get. cbv zeta.
  rewrite Hget. cbn [bind emit lift app].
  unfold discovery_attempt, call_containerFetch.
  rewrite Hfetch. cbn [bind emit lift app].
  unfold process_discovery_response. cbv zeta.
  rewrite Hct. cbn [negb]. rewrite Hjson. cbn [bind emit lift app].
  rewrite Hfield. cbn [bind emit lift app]. rewrite Hfalsy. reflexivity.
Qed.

Lemma X9_payload_without_debugger_url_witness :
  handleJsonVersionRequest
    (Sample.discovery_against
       (Returned Sample.json_array_503))
    Sample.uuid =
  ([CallGet Sample.uuid;
    CallContainerFetch "http://127.0.0.1:3000/json/version"
      (Sample.req "GET" "https://proxy.example/json/version" [])],
   Returned (json_200 (JArr [JNum "1"]))).
Proof.
  apply (X9_payload_without_debugger_url
           (Sample.discovery_against
              (Returned Sample.json_array_503))
           Sample.uuid Sample.json_array_503 (JArr [JNum "1"]) None).
  - eexists. split; reflexivity.
  - split; reflexivity.
  - reflexivity.
  - reflexivity.
Defined.

(** X10: a backend answer announced as JSON whose body does not parse, or
    parses to [null], makes the discovery handler answer 500 with the text
    of the error; the backend is asked once. *)
Theorem X10_unusable_json_payload :
  forall (this : BrowserRequestHandler) (uuid : string) (resp : BackendResponse),
    backend_answers this uuid resp ->
    is_json_content_type (headers_get (b_headers resp) "content-type") = true ->
    (forall e, b_json resp = Thrown e ->
               outcome (handleJsonVersionRequest this uuid) = Returned (failed_500 e)) /\
    (b_json resp = Returned JNull ->
     outcome (handleJsonVersionRequest this uuid) =
       Returned (failed_500
                   "TypeError: Cannot read properties of null (reading 'webSocketDebuggerUrl')")) /\
    fetch_count (events (handleJsonVersionRequest this uuid)) = 1.
Proof.
  intros this uuid resp [c [Hget Hfetch]] Hct.
  assert (Hrun : forall e,
             outcome (process_discovery_response this uuid resp) = Thrown e ->
             outcome (handleJsonVersionRequest this uuid) = Returned (failed_500 e)).
  { intros e Hp.
    apply (guarded_error_caught this uuid c Hget e).
    right. exists resp. split; assumption. }
  repeat split.
  - intros e He. apply Hrun.
    unfold process_discovery_response. cbv zeta. rewrite Hct, He. reflexivity.
  - intros Hnull. apply Hrun.
    unfold process_discovery_response. cbv zeta. rewrite Hct, Hnull. reflexivity.
  - unfold handleJsonVersionRequest, namespace_get. cbv zeta.
    rewrite Hget. cbn [bind emit lift app].
    unfold discovery_attempt, call_containerFetch.
    rewrite Hfetch. cbn [bind emit lift app].
    pose proof (fetch_count_avoids _ (process_avoids_fetch this uuid resp)) as Hc.
    destruct (process_discovery_response this uuid resp) as [t [out|e]];
      cbn [events fst] in Hc; cbn [try_catch discovery_failed bind emit lift app events fst].
    + rewrite !fetch_count_cons, Hc. reflexivity.
    + rewrite !fetch_count_cons, fetch_count_app, Hc. reflexivity.
Qed.

Lemma X10_unusable_json_payload_witness :
  outcome (handleJsonVersionRequest
             (Sample.discovery_against
                (Returned Sample.json_null))
             Sample.uuid) =
    Returned (failed_500
                "TypeError: Cannot read properties of null (reading 'webSocketDebuggerUrl')").
Proof.
  apply (proj1 (proj2 (X10_unusable_json_payload
                         (Sample.discovery_against
                            (Returned Sample.json_null))
                         Sample.uuid Sample.json_null
                         (ex_intro _ _ (conj eq_refl eq_refl)) eq_refl))).
  reflexivity.
Defined.

(* ================================================================== *)
(** * The proxy forwarder: failures *)
(* ================================================================== *)

(** X11: the proxy forwarder catches nothing.  When the backend handle
    cannot be obtained, when the backend call throws or when the body cannot
    be read, [handle] throws that same error; and when the backend answers
    with a status that [new Response] does not accept together with the
    rewritten text (a status outside 200..599, such as 101, or one of 204,
    205 and 304 with a text that is not empty), [handle] throws as well
    instead of forwarding the answer.  An answer 204, 205 or 304 with an
    empty text is not among these: it is forwarded. *)
Theorem X11_proxy_failures_escape :
  forall (this : BrowserRequestHandler) (uuid sid : string),
    route this = ToProxy sid ->
    (forall e,
        get_by_name (BROWSER_CONTAINER (env this)) sid = Thrown e ->
        handle this uuid = ([CallGet sid], Thrown e)) /\
    (forall container e,
        get_by_name (BROWSER_CONTAINER (env this)) sid = Returned container ->
        containerFetch container (upstream_url this) (request this) = Thrown e ->
        handle this uuid =
          ([CallGet sid; CallContainerFetch (upstream_url this) (request this)],
           Thrown e)) /\
    (forall resp e,
        backend_answers this sid resp ->
        b_text resp = Thrown e ->
        handle this uuid =
          ([CallGet sid; CallContainerFetch (upstream_url this) (request this)],
           Thrown e)) /\
    (forall resp text,
        backend_answers this sid resp ->
        b_text resp = Returned text ->
        accepts (b_status resp) (rewriteHost this text) = false ->
        exists e,
          handle this uuid =
            ([CallGet sid; CallContainerFetch (upstream_url this) (request this)],
             Thrown e)).
Proof.
  intros this uuid sid Hr. rewrite (proxy_run this uuid sid Hr).
  unfold getContainer, namespace_get, containerFetchWithRewrite, call_containerFetch.
  cbv zeta. repeat split.
  - intros e Hget. rewrite Hget. reflexivity.
  - intros c e Hget Hf. rewrite Hget. cbn [bind emit lift app].
    rewrite Hf. reflexivity.
  - intros resp e [c [Hget Hf]] Ht. rewrite Hget. cbn [bind emit lift app].
    rewrite Hf. cbn [bind emit lift app]. rewrite Ht. reflexivity.
  - intros resp text [c [Hget Hf]] Ht Hst. rewrite Hget. cbn [bind emit lift app].
    rewrite Hf. cbn [bind emit lift app]. rewrite Ht. cbn [bind emit lift app].
    unfold accepts in Hst. unfold new_Response.
    destruct ((b_status resp <? 200)%Z || (599 <? b_status resp)%Z)%bool.
    + eexists. reflexivity.
    + destruct (null_body_status (b_status resp)); cbn [negb andb orb] in Hst;
        [|discriminate Hst].
      cbn [body_is_empty]. rewrite Hst. eexists. reflexivity.
Qed.

Lemma X11_proxy_failures_escape_witness :
  exists e,
    handle (Sample.proxied (Returned (Sample.plain 101 ""))) Sample.uuid =
      ([CallGet "s-1";
        CallContainerFetch
          (upstream_url (Sample.proxied (Returned (Sample.plain 101 ""))))
          (request (Sample.proxied (Returned (Sample.plain 101 ""))))],
       Thrown e).
Proof.
  apply (proj2 (proj2 (proj2 (X11_proxy_failures_escape
                                (Sample.proxied (Returned (Sample.plain 101 "")))
                                Sample.uuid "s-1" eq_refl)))
               (Sample.plain 101 "") "").
  - eexists. split; reflexivity.
  - reflexivity.
  - reflexivity.
Defined.

(* ================================================================== *)
(** * Calls to the outside, counted *)
(* ================================================================== *)

Section Counting.

Variable p : Event -> bool.

Lemma count_cons (e : Event) (t : list Event) :
  count_events p (e :: t) = (if p e then 1 else 0) + count_events p t.
Proof. unfold count_events. simpl. destruct (p e); reflexivity. Qed.

Lemma count_app (t1 t2 : list Event) :
  count_events p (t1 ++ t2) = count_events p t1 + count_events p t2.
Proof. unfold count_events. rewrite filter_app, length_app. reflexivity. Qed.

Lemma count_avoids {A} (m : M A) : avoids p m -> count_events p (events m) = 0.
Proof.
  unfold avoids, count_events. generalize (events m) as t.
  induction t as [|e t IH]; simpl; [reflexivity|].
  intros H. apply andb_true_iff in H. destruct H as [He Ht].
  apply negb_true_iff in He. rewrite He. auto.
Qed.

End Counting.

Section AtMostOnce.

Variable this : BrowserRequestHandler.
Variable uuid : string.

(** A kind of call: console lines are not of it. *)
Variable p : Event -> bool.
Hypothesis p_error : forall line, p (ConsoleError line) = false.
Hypothesis p_auth : forall r, p (ConsoleLogAuth r) = false.

Lemma process_avoids (resp : BackendResponse) :
  avoids p (process_discovery_response this uuid resp).
Proof.
  unfold process_discovery_response. cbv zeta.
  destruct (negb (is_json_content_type _)).
  - avoid_step; [avoid_step|].
    avoid_step.
    + unfold avoids. cbn. now rewrite p_error.
    + repeat avoid_step.
  - repeat avoid_step.
Qed.

Lemma discovery_count :
  count_events p (events (handleJsonVersionRequest this uuid)) <=
    (if p (CallGet uuid) then 1 else 0) +
    (if p (CallContainerFetch (upstream_url this) (request this)) then 1 else 0).
Proof.
  unfold handleJsonVersionRequest, namespace_get. cbv zeta.
  destruct (get_by_name (BROWSER_CONTAINER (env this)) uuid) as [c|e];
    cbn [bind emit lift app].
  - unfold discovery_attempt, call_containerFetch.
    destruct (containerFetch c (upstream_url this) (request this)) as [resp|e];
      cbn [bind emit lift app].
    + pose proof (count_avoids p _ (process_avoids resp)) as Hc.
      destruct (process_discovery_response this uuid resp) as [t [out|e]];
        cbn [events fst] in Hc;
        cbn [try_catch discovery_failed bind emit lift app events fst].
      * rewrite !count_cons, Hc. lia.
      * rewrite !count_cons, count_app, Hc, count_cons, p_error.
        cbn [count_events filter List.length]. lia.
    + cbn [try_catch discovery_failed bind emit lift app events fst].
      rewrite !count_cons, p_error. cbn [count_events filter List.length]. lia.
  - cbn [events fst]. rewrite count_cons. cbn [count_events filter List.length]. lia.
Qed.

Lemma handle_count :
  (forall sid r,
      (if p (CallGet sid) then 1 else 0) +
      (if p (CallFetch r) then 1 else 0) <= 1) ->
  (forall sid,
      (if p (CallGet sid) then 1 else 0) +
      (if p (CallContainerFetch (upstream_url this) (request this)) then 1 else 0) <= 1) ->
  count_events p (events (handle this uuid)) <= 1.
Proof.
  intros Hws Hpx. rewrite handle_dispatch.
  destruct (route this) as [| |sid|sid]; cbn [dispatch].
  - unfold guarded_discovery. cbv zeta.
    destruct (negb (isAuthenticated (checkAuthentication this))).
    + destruct (isJsonVersionRequest this); cbn [bind emit lift app events fst
        Response_json new_Response plain_401];
        rewrite count_cons, p_auth; cbn; lia.
    + pose proof discovery_count as Hd. specialize (Hpx uuid). lia.
  - cbn. lia.
  - unfold getContainer, namespace_get, handleWebsocketUpgrade. cbv zeta.
    destruct (get_by_name (BROWSER_CONTAINER (env this)) sid) as [c|e];
      cbn [bind emit lift app].
    + destruct (headers_set _ _ _) as [h|e]; cbn [bind emit lift app].
      * specialize (Hws sid {| req_method := req_method (request this);
                               req_url := req_url (request this);
                               req_headers := h;
                               req_body := req_body (request this) |}).
        destruct (fetch c _); cbn [events fst];
          rewrite !count_cons; cbn [count_events filter List.length]; lia.
      * specialize (Hws sid (request this)).
        cbn [events fst]. rewrite count_cons.
        cbn [count_events filter List.length]. lia.
    + specialize (Hws sid (request this)).
      cbn [events fst]. rewrite count_cons. cbn [count_events filter List.length].
      lia.
  - unfold getContainer, namespace_get, containerFetchWithRewrite,
      call_containerFetch. cbv zeta. specialize (Hpx sid).
    destruct (get_by_name (BROWSER_CONTAINER (env this)) sid) as [c|e];
      cbn [bind emit lift app].
    + destruct (containerFetch c (upstream_url this) (request this)) as [resp|e];
        cbn [bind emit lift app].
      * destruct (b_text resp); cbn [bind emit lift app].
        -- destruct (new_Response _ _ _); cbn [events fst];
             rewrite !count_cons; cbn [count_events filter List.length]; lia.
        -- cbn [events fst]. rewrite !count_cons.
           cbn [count_events filter List.length]. lia.
      * cbn [events fst]. rewrite !count_cons.
        cbn [count_events filter List.length]. lia.
    + cbn [events fst]. rewrite count_cons. cbn [count_events filter List.length].
      lia.
Qed.

End AtMostOnce.

(** X12: one request makes at most one call to a backend (a buffered or a
    raw forward, never both and never a second try) and looks up at most one
    backend handle; a request without session identity that is answered with
    400 or 401 does neither. *)
Theorem X12_at_most_one_backend_call :
  forall (this : BrowserRequestHandler) (uuid : string),
    count_events is_backend_call (events (handle this uuid)) <= 1 /\
    count_events is_get (events (handle this uuid)) <= 1 /\
    (forall out, outcome (handle this uuid) = Returned out ->
                 no_session this ->
                 status out = 400%Z \/ status out = 401%Z ->
                 count_events is_backend_call (events (handle this uuid)) = 0 /\
                 count_events is_get (events (handle this uuid)) = 0).
Proof.
  intros this uuid. split; [|split].
  - apply handle_count; intros; cbn; try reflexivity; lia.
  - apply handle_count; intros; cbn; try reflexivity; lia.
  - intros out Hout Hns Hst.
    rewrite handle_dispatch in *. rewrite (route_no_session this Hns) in *.
    destruct (isJsonVersionRequest this) eqn:Hd; cbn [dispatch] in *.
    + unfold guarded_discovery in *. cbv zeta in *.
      destruct (negb (isAuthenticated (checkAuthentication this))).
      * rewrite Hd. split; reflexivity.
      * exfalso.
        unfold handleJsonVersionRequest, namespace_get in Hout. cbv zeta in Hout.
        destruct (get_by_name (BROWSER_CONTAINER (env this)) uuid) as [c|e] eqn:Hget;
          cbn [bind emit lift app] in Hout; [|discriminate Hout].
        destruct (discovery_always_answers this uuid c Hget) as [out' [Ho Hs]].
        unfold handleJsonVersionRequest, namespace_get in Ho. cbv zeta in Ho.
        rewrite Hget in Ho. cbn [bind emit lift app] in Ho.
        rewrite Ho in Hout. injection Hout as <-.
        unfold discovery_status in Hs. lia.
    + split; reflexivity.
Qed.

Lemma X12_at_most_one_backend_call_witness :
  count_events is_backend_call
    (events (handle Sample.discovery_wrong_key Sample.uuid)) = 0 /\
  count_events is_get (events (handle Sample.discovery_wrong_key Sample.uuid)) = 0.
Proof.
  apply (proj2 (proj2 (X12_at_most_one_backend_call
                         Sample.discovery_wrong_key Sample.uuid))
               (structured_401 (checkAuthentication Sample.discovery_wrong_key))).
  - reflexivity.
  - reflexivity.
  - right. reflexivity.
Defined.

(* ================================================================== *)
(** * Discovery behind the authentication check *)
(* ================================================================== *)

Section AuthOutcomes.

Variable this : BrowserRequestHandler.

Lemma check_dev : dev_mode (env this) ->
  checkAuthentication this = {| isAuthenticated := true; message := "" |}.
Proof.
  unfold dev_mode, checkAuthentication. intros ->. reflexivity.
Qed.

Lemma not_dev_strict : ~ dev_mode (env this) ->
  Js.strict_eq (DEV (env this)) "true" = false.
Proof.
  intros Hn. destruct (Js.strict_eq (DEV (env this)) "true") eqn:H; [|reflexivity].
  apply strict_eq_true in H. contradiction.
Qed.

Lemma check_unconfigured :
  ~ dev_mode (env this) -> Js.truthy (API_KEY (env this)) = false ->
  checkAuthentication this = key_not_configured.
Proof.
  intros Hn Hk. unfold checkAuthentication. cbv zeta.
  rewrite (not_dev_strict Hn), Hk. reflexivity.
Qed.

Lemma check_right_key (k : string) :
  ~ dev_mode (env this) -> key_configured (env this) k ->
  Url.searchParams_get (url this) "apiKey" = Some k ->
  checkAuthentication this = {| isAuthenticated := true; message := "" |}.
Proof.
  intros Hn [Hk Hne] Hp. unfold checkAuthentication. cbv zeta.
  rewrite (not_dev_strict Hn), Hk, Hp.
  apply truthy_Some in Hne. rewrite Hne. cbn [negb andb Js.same].
  rewrite String.eqb_refl. reflexivity.
Qed.

Lemma check_wrong_key (k : string) :
  ~ dev_mode (env this) -> key_configured (env this) k ->
  Url.searchParams_get (url this) "apiKey" <> Some k ->
  checkAuthentication this = key_rejected.
Proof.
  intros Hn [Hk Hne] Hp. unfold checkAuthentication. cbv zeta.
  rewrite (not_dev_strict Hn), Hk.
  apply truthy_Some in Hne. rewrite Hne. cbn [negb].
  destruct (Url.searchParams_get (url this) "apiKey") as [a|]; cbn [Js.same].
  - destruct (String.eqb_spec a k) as [->|_]; [now elim Hp|].
    rewrite andb_false_r. reflexivity.
  - reflexivity.
Qed.

Hypothesis Hns : no_session this.
Hypothesis Hpath : is_discovery_path (Url.pathname (url this)).

Lemma discovery_run (uuid : string) :
  handle this uuid =
    if isAuthenticated (checkAuthentication this)
    then handleJsonVersionRequest this uuid
    else ([ConsoleLogAuth (checkAuthentication this)],
          Returned (structured_401 (checkAuthentication this))).
Proof.
  apply isJsonVersionRequest_iff in Hpath.
  rewrite handle_dispatch, (route_no_session this Hns), Hpath.
  cbn [dispatch]. unfold guarded_discovery. cbv zeta. rewrite Hpath.
  destruct (isAuthenticated (checkAuthentication this)); reflexivity.
Qed.

End AuthOutcomes.

(** X13: a discovery request without session identity is let through to the
    discovery handler in development mode, and in production when the
    [apiKey] query parameter equals the configured key; otherwise it is
    answered 401 and nothing else happens: with the message
    [API_KEY not configured...] when no key is configured, and with
    [Invalid or missing API key...] when the query does not carry the
    configured key, whatever the request headers hold. *)
Theorem X13_discovery_authentication_outcomes :
  forall (this : BrowserRequestHandler) (uuid : string),
    no_session this ->
    is_discovery_path (Url.pathname (url this)) ->
    (dev_mode (env this) ->
     handle this uuid = handleJsonVersionRequest this uuid) /\
    (forall k, ~ dev_mode (env this) -> key_configured (env this) k ->
               Url.searchParams_get (url this) "apiKey" = Some k ->
               handle this uuid = handleJsonVersionRequest this uuid) /\
    (~ dev_mode (env this) -> Js.truthy (API_KEY (env this)) = false ->
     handle this uuid =
       ([ConsoleLogAuth key_not_configured],
        Returned (structured_401 key_not_configured))) /\
    (forall k, ~ dev_mode (env this) -> key_configured (env this) k ->
               Url.searchParams_get (url this) "apiKey" <> Some k ->
               handle this uuid =
                 ([ConsoleLogAuth key_rejected],
                  Returned (structured_401 key_rejected))).
Proof.
  intros this uuid Hns Hpath.
  pose proof (discovery_run this Hns Hpath uuid) as Hrun.
  repeat split.
  - intros Hd. rewrite Hrun, (check_dev this Hd). reflexivity.
  - intros k Hn Hk Hp. rewrite Hrun, (check_right_key this k Hn Hk Hp). reflexivity.
  - intros Hn Hk. rewrite Hrun, (check_unconfigured this Hn Hk). reflexivity.
  - intros k Hn Hk Hp. rewrite Hrun, (check_wrong_key this k Hn Hk Hp). reflexivity.
Qed.

Lemma X13_discovery_authentication_outcomes_witness :
  handle Sample.discovery_key_in_header Sample.uuid =
    ([ConsoleLogAuth key_rejected], Returned (structured_401 key_rejected)).
Proof.
  apply (proj2 (proj2 (proj2 (X13_discovery_authentication_outcomes
                                Sample.discovery_key_in_header Sample.uuid
                                eq_refl (or_introl eq_refl))))
               "secret").
  - unfold dev_mode. discriminate.
  - split; [reflexivity|discriminate].
  - discriminate.
Defined.

(* ================================================================== *)
(** * The debugger URL of a backend of any host *)
(* ================================================================== *)

(** X14: whenever the payload of a successful discovery carries a truthy
    [webSocketDebuggerUrl] that [new URL] accepts as a URL with a host,
    whatever that host, and the external host of the request holds no dollar
    sign, the URL in the 200 answer, read by its components as they are
    written, has the identity minted for the request as its [sessionId]
    query parameter (a [sessionId] the backend's URL already had is
    overwritten), the backend's scheme, and the backend's host after
    [rewriteHost]. *)
Theorem X14_debugger_url_names_minted_session :
  forall (this : BrowserRequestHandler) (uuid : string)
         (resp : BackendResponse) (data v : json) (wsUrl : Url.URL),
    Url.sound (url this) = true ->
    occurs "$" (Url.host (url this)) = false ->
    backend_answers this uuid resp ->
    json_payload resp data ->
    debugger_url_field data v ->
    Json.truthy (Some v) = true ->
    new_URL this (Json.toString v) = Returned wsUrl ->
    Url.sound wsUrl = true ->
    Url.has_authority wsUrl = true ->
    exists (out : Response) (s : string) (u : Url.URL),
      outcome (handleJsonVersionRequest this uuid) = Returned out /\
      answers_debugger_url out s /\
      Url.read s = Some u /\
      Url.searchParams_get u "sessionId" = Some uuid /\
      Url.scheme u = Url.scheme wsUrl /\
      Url.host u = rewriteHost this (Url.host wsUrl).
Proof.
  intros this uuid resp data v wsUrl Hreq Hdollar Hans Hpay Hfield Htruthy
    Hparse Hsound Hauth.
  destruct (discovery_answer this uuid resp data v wsUrl Hans Hpay Hfield Htruthy Hparse)
    as [fields [_ Hrun]].
  eexists _, (rewritten_debugger_url this uuid wsUrl),
    (rewritten_parsed this uuid wsUrl).
  split; [rewrite Hrun; reflexivity|]. split.
  - split; [reflexivity|]. eexists. split; [reflexivity|]. apply lookup_update.
  - split; [exact (debugger_url_reads this uuid wsUrl Hsound Hauth Hreq Hdollar)|].
    split; [apply debugger_url_session|]. split; reflexivity.
Qed.

Lemma X14_debugger_url_names_minted_session_witness :
  exists (out : Response) (s : string) (u : Url.URL),
    outcome (handleJsonVersionRequest
               (Sample.discovery_against (Returned Sample.json_stale_session))
               Sample.uuid) = Returned out /\
    answers_debugger_url out s /\
    Url.read s = Some u /\
    Url.searchParams_get u "sessionId" = Some Sample.uuid /\
    Url.scheme u = "ws" /\
    Url.host u = "localhost:9222".
Proof.
  apply (X14_debugger_url_names_minted_session
           (Sample.discovery_against (Returned Sample.json_stale_session)) Sample.uuid
           Sample.json_stale_session
           (JObj [("webSocketDebuggerUrl",
                   JStr "ws://localhost:9222/devtools/browser/b1?sessionId=old&x=1")])
           (JStr "ws://localhost:9222/devtools/browser/b1?sessionId=old&x=1")
           (Url.mkURL "ws" "localhost:9222" "/devtools/browser/b1"
                      (Some "sessionId=old&x=1") None "" true
                      [("sessionId", "old"); ("x", "1")])).
  - reflexivity.
  - reflexivity.
  - eexists. split; reflexivity.
  - split; reflexivity.
  - reflexivity.
  - reflexivity.
  - reflexivity.
  - reflexivity.
  - reflexivity.
Defined.
